(** * kataras/sheets: the binding engine, the error model and the transport

    A shallow embedding of [values.go], [error.go] and the request cycle of
    [client.go], with the properties of the specification proved over it.

    Go values are modelled as follows.
    - [int] is [Z]; only comparisons are performed on it.
    - [string] is [string].
    - [reflect.Type] is the inductive [GoType]; type identity is equality.
    - an [interface{}] cell is a [Value]; the nil interface is [VNil].
    - a pointer to an object that is never written after its construction
      ([*ResourceError], [*metadata]) is a [Ref]: an address together with
      the pointee; [None] is the nil pointer.
    - the [error] interface is [option error]; [None] is the nil error.
    - a run-time panic is the [Panic] outcome of a [Res]. *)

From Stdlib Require Import ZArith String Sorting.Sorted.
From stdpp Require Import base option list countable gmap strings.

Local Open Scope string_scope.
Local Open Scope Z_scope.
Local Open Scope list_scope.

(** ** Outcomes of a call: a normal return or a run-time panic *)

Inductive panic : Type :=
| NilDereference        (* invalid memory address or nil pointer dereference *)
| IndexOutOfRange       (* index out of range *)
| ZeroValue             (* reflect: call on / using the zero Value *)
| NotAStructType        (* panic("not a struct type") *)
| FieldOutOfRange       (* reflect: Field index out of range *)
| IllTyped.             (* unreachable in a well-typed Go program *)

Inductive Res (A : Type) : Type :=
| Ret (a : A)
| Panic (p : panic).
Arguments Ret {A} a.
Arguments Panic {A} p.

(** A pointer to an immutable object: its address and what it points to. *)
Record Ref (A : Type) : Type := mkRef { addr : nat; deref : A }.
Arguments mkRef {A} addr deref.
Arguments addr {A} r.
Arguments deref {A} r.

(** ** The fragment of package [reflect] that the binding engine uses *)

Module Reflect.

Inductive Kind : Type :=
| Bool | Int | Float64 | String | Interface | Ptr | Slice | Struct | OtherKind.

(** [TNamed n] stands for the predeclared type named [n] of any other
    basic kind ([int64], [uint8], [float32] and so on); two of them are of
    different kinds, which [OtherKind] does not tell apart. A
    struct type carries its name, which is empty for a struct type that is
    written out where it is used ([struct{ A int }]), and its fields in
    declaration order. A field carries what [Type.Field(i)] returns of it
    and the binder reads; its tag is given by the value of the [sheets]
    key, and the struct types considered have no other key and no embedded
    field, so that two fields are the same field exactly when their four
    components are equal. *)
Inductive GoType : Type :=
| TBool
| TInt
| TFloat64
| TString
| TInterface                     (* interface{} *)
| TNamed (name : string)
| TPtr (elem : GoType)
| TSlice (elem : GoType)
| TStruct (name : string) (fields : list StructField)
with StructField : Type :=
| MkField (Name : string)        (* f.Name *)
          (PkgPath : string)     (* f.PkgPath, empty for an exported field *)
          (Tag : string)         (* f.Tag.Get("sheets") *)
          (Typ : GoType).        (* f.Type *)

Definition Name (f : StructField) : string :=
  match f with MkField n _ _ _ => n end.
Definition PkgPath (f : StructField) : string :=
  match f with MkField _ p _ _ => p end.
Definition Tag (f : StructField) : string :=
  match f with MkField _ _ t _ => t end.
Definition Typ (f : StructField) : GoType :=
  match f with MkField _ _ _ t => t end.

(** Induction over types that also covers the fields of a struct type. *)
Section GoType_induction.
Variable P : GoType -> Prop.
Variable Q : StructField -> Prop.
Hypothesis HBool : P TBool.
Hypothesis HInt : P TInt.
Hypothesis HFloat64 : P TFloat64.
Hypothesis HString : P TString.
Hypothesis HInterface : P TInterface.
Hypothesis HNamed : forall n, P (TNamed n).
Hypothesis HPtr : forall t, P t -> P (TPtr t).
Hypothesis HSlice : forall t, P t -> P (TSlice t).
Hypothesis HStruct : forall n fs, Forall Q fs -> P (TStruct n fs).
Hypothesis HField : forall n p tg t, P t -> Q (MkField n p tg t).

Fixpoint GoType_fields_ind (t : GoType) : P t :=
  match t with
  | TBool => HBool
  | TInt => HInt
  | TFloat64 => HFloat64
  | TString => HString
  | TInterface => HInterface
  | TNamed n => HNamed n
  | TPtr e => HPtr e (GoType_fields_ind e)
  | TSlice e => HSlice e (GoType_fields_ind e)
  | TStruct n fs =>
      HStruct n fs
        ((fix all (l : list StructField) : Forall Q l :=
            match l with
            | [] => @List.Forall_nil _ Q
            | f :: r =>
                @List.Forall_cons _ Q f r (StructField_fields_ind f) (all r)
            end) fs)
  end
with StructField_fields_ind (f : StructField) : Q f :=
  match f with
  | MkField n p tg t => HField n p tg t (GoType_fields_ind t)
  end.
End GoType_induction.

(** Types are encoded as trees so that they can be compared and used as
    the keys of a finite map, as [reflect.Type] is in the cache. *)
Fixpoint enc (t : GoType) : gen_tree (nat + string) :=
  match t with
  | TBool => GenLeaf (inl 0%nat)
  | TInt => GenLeaf (inl 1%nat)
  | TFloat64 => GenLeaf (inl 2%nat)
  | TString => GenLeaf (inl 3%nat)
  | TInterface => GenLeaf (inl 4%nat)
  | TNamed n => GenNode 0 [GenLeaf (inr n)]
  | TPtr e => GenNode 1 [enc e]
  | TSlice e => GenNode 2 [enc e]
  | TStruct n fs => GenNode 3 (GenLeaf (inr n) :: map enc_field fs)
  end
with enc_field (f : StructField) : gen_tree (nat + string) :=
  match f with
  | MkField n p tg t =>
      GenNode 4 [GenLeaf (inr n); GenLeaf (inr p); GenLeaf (inr tg); enc t]
  end.

Fixpoint dec (g : gen_tree (nat + string)) : option GoType :=
  match g with
  | GenLeaf (inl 0%nat) => Some TBool
  | GenLeaf (inl 1%nat) => Some TInt
  | GenLeaf (inl 2%nat) => Some TFloat64
  | GenLeaf (inl 3%nat) => Some TString
  | GenLeaf (inl 4%nat) => Some TInterface
  | GenNode 0 [GenLeaf (inr n)] => Some (TNamed n)
  | GenNode 1 [e] => TPtr <$> dec e
  | GenNode 2 [e] => TSlice <$> dec e
  | GenNode 3 (GenLeaf (inr n) :: fs) =>
      TStruct n <$> mapM dec_field fs
  | _ => None
  end
with dec_field (g : gen_tree (nat + string)) : option StructField :=
  match g with
  | GenNode 4 [GenLeaf (inr n); GenLeaf (inr p); GenLeaf (inr tg); t] =>
      MkField n p tg <$> dec t
  | _ => None
  end.

Lemma dec_enc (t : GoType) : dec (enc t) = Some t.
Proof.
  induction t using GoType_fields_ind
    with (Q := fun f => dec_field (enc_field f) = Some f);
    simpl; try reflexivity.
  - rewrite IHt. reflexivity.
  - rewrite IHt. reflexivity.
  - assert (Hfs : mapM dec_field (map enc_field fs) = Some fs).
    { induction H as [|f r Hf _ IHr]; simpl; [reflexivity|].
      rewrite Hf. simpl. rewrite IHr. reflexivity. }
    rewrite Hfs. reflexivity.
  - rewrite IHt. reflexivity.
Qed.

Lemma enc_inj (a b : GoType) : enc a = enc b -> a = b.
Proof.
  intros E. apply (f_equal dec) in E. rewrite !dec_enc in E. congruence.
Qed.

#[global] Instance GoType_eq_dec : EqDecision GoType.
Proof.
  intros a b. destruct (decide (enc a = enc b)) as [E|N].
  - left. exact (enc_inj a b E).
  - right. intros ->. apply N. reflexivity.
Defined.

#[global] Instance GoType_countable : Countable GoType.
Proof. exact (inj_countable enc dec dec_enc). Defined.

Lemma dec_enc_field (f : StructField) : dec_field (enc_field f) = Some f.
Proof. destruct f as [n p tg t]. simpl. rewrite dec_enc. reflexivity. Qed.

#[global] Instance StructField_eq_dec : EqDecision StructField.
Proof.
  intros a b. destruct (decide (enc_field a = enc_field b)) as [E|N].
  - left. apply (f_equal dec_field) in E. rewrite !dec_enc_field in E.
    congruence.
  - right. intros ->. apply N. reflexivity.
Defined.

(** [Type.Kind] *)
Definition kind (t : GoType) : Kind :=
  match t with
  | TBool => Bool
  | TInt => Int
  | TFloat64 => Float64
  | TString => String
  | TInterface => Interface
  | TNamed _ => OtherKind
  | TPtr _ => Ptr
  | TSlice _ => Slice
  | TStruct _ _ => Struct
  end.

#[global] Instance Kind_eq_dec : EqDecision Kind.
Proof. solve_decision. Defined.

(** [Type.Elem], which panics on a type that has no element type *)
Definition Elem (t : GoType) : Res GoType :=
  match t with
  | TPtr e | TSlice e => Ret e
  | _ => Panic IllTyped
  end.

(** The fields that [NumField] counts and [Field(i)] returns. *)
Definition Fields (t : GoType) : list StructField :=
  match t with
  | TStruct _ fs => fs
  | _ => []
  end.

(** A dynamic value: what an [interface{}] cell or a field can hold.
    A [float64] is carried as its bit pattern, which the binder never
    inspects; [VOpaque t n] is a value of any other type [t]. *)
Inductive Value : Type :=
| VNil
| VBool (b : bool)
| VInt (n : Z)
| VFloat64 (bits : Z)
| VString (s : string)
| VOpaque (t : GoType) (n : nat).

(** [reflect.ValueOf(v).Type()] is defined on every value but the nil
    interface, whose [reflect.Value] is the zero Value. *)
Definition typeOf (v : Value) : option GoType :=
  match v with
  | VNil => None
  | VBool _ => Some TBool
  | VInt _ => Some TInt
  | VFloat64 _ => Some TFloat64
  | VString _ => Some TString
  | VOpaque t _ => Some t
  end.

(** [Type.Name() != ""], the test [HasName] of the assignability rule:
    the predeclared and the defined types have a name; [interface{}], the
    pointer and slice types and a struct type written out in place have
    none. *)
Definition hasName (t : GoType) : bool :=
  match t with
  | TBool | TInt | TFloat64 | TString | TNamed _ => true
  | TInterface | TPtr _ | TSlice _ => false
  | TStruct n _ => negb (bool_decide (n = ""))
  end.

(** [haveIdenticalUnderlyingType(T, V, true)]. With the tags compared, the
    element types of two pointer or slice types and the fields of two
    struct types have to be identical. Two different [TNamed] types are
    of different kinds, although [kind] gives [OtherKind] for both, and so
    fall under the last case. *)
Definition haveIdenticalUnderlyingType (T V : GoType) : bool :=
  if bool_decide (T = V) then true
  else if bool_decide (kind T ≠ kind V) then false
  else
    match T, V with
    | TBool, TBool | TInt, TInt | TFloat64, TFloat64 | TString, TString =>
        true                       (* non-composite types of equal kind *)
    | TInterface, TInterface => true             (* both without methods *)
    | TPtr t, TPtr v | TSlice t, TSlice v => bool_decide (t = v)
    | TStruct _ tf, TStruct _ vf => bool_decide (tf = vf)
    | _, _ => false
    end.

(** [directlyAssignable(T, V)]: a value of type [V] can be stored as a [T]
    as it is. The types are identical, or at least one of them has no
    name, they are of one kind and their underlying types are identical.
    (The fragment has no channel types.) *)
Definition directlyAssignable (T V : GoType) : bool :=
  if bool_decide (T = V) then true
  else if hasName T && hasName V || bool_decide (kind T ≠ kind V) then false
  else haveIdenticalUnderlyingType T V.

(** [implements(T, V)]: [T] is an interface type and [V] has its methods.
    The one interface type of the fragment, [interface{}], has none. *)
Definition implements (T V : GoType) : bool :=
  bool_decide (kind T = Interface).

(** [Type.AssignableTo]: [v.AssignableTo(t)] *)
Definition AssignableTo (v t : GoType) : bool :=
  directlyAssignable t v || implements t v.

(** What [Value.Set] stores, [Value.assignTo]: a directly assignable value
    is stored with the type of the target, its contents unchanged; a value
    stored in an interface keeps its own type as the dynamic type. Only a
    value of a struct type can change its type here, to or from a struct
    type without a name. *)
Definition assignTo (dst : GoType) (v : Value) : Value :=
  match v with
  | VOpaque t n => if directlyAssignable dst t then VOpaque dst n else v
  | _ => v
  end.

(** The zero value of a type, as [reflect.New] initialises a field. *)
Definition zero (t : GoType) : Value :=
  match t with
  | TBool => VBool false
  | TInt => VInt 0
  | TFloat64 => VFloat64 0
  | TString => VString ""
  | TInterface => VNil
  | _ => VOpaque t 0
  end.

End Reflect.

(** ** error.go: the structured error and its matching predicates *)

Module Errors.

(** [ResourceError] *)
Record ResourceError : Type := mkResourceError {
  Method : string;
  URL : string;
  StatusCode : Z;
  Message : string
}.

#[global] Instance ResourceError_eq_dec : EqDecision ResourceError.
Proof. solve_decision. Defined.

(** The dynamic values an [error] interface holds here: the sentinel
    [ErrOK] of values.go (compared by identity), a [*ResourceError], which
    may be a nil pointer inside a non-nil interface, or any other error,
    identified by its message. *)
Inductive error : Type :=
| ErrOK
| ResourceErr (p : option (Ref ResourceError))
| Errorf (msg : string).

#[global] Instance Ref_eq_dec {A} `{EqDecision A} : EqDecision (Ref A).
Proof. solve_decision. Defined.

#[global] Instance error_eq_dec : EqDecision error.
Proof. solve_decision. Defined.

(** [IsStatusError(statusCode, target)] *)
Definition IsStatusError (statusCode : Z) (target : option error)
  : Res (option (Ref ResourceError) * bool) :=
  match target with
  | None => Ret (None, false)
  | Some (ResourceErr t) =>
      match t with
      | None => Panic NilDereference            (* t.StatusCode on nil *)
      | Some r => Ret (Some r, bool_decide (StatusCode (deref r) = statusCode))
      end
  | Some _ => Ret (None, false)
  end.

(** The conjunction [IsResourceError] returns once both pointers are
    dereferenced. *)
Definition fieldsMatch (e t : ResourceError) : bool :=
  (bool_decide (Method e = Method t) || bool_decide (Method t = "")) &&
  (bool_decide (URL e = URL t) || bool_decide (URL t = "")) &&
  (bool_decide (StatusCode e = StatusCode t) || bool_decide (StatusCode t <= 0)) &&
  (bool_decide (Message e = Message t) || bool_decide (Message t = "")).

(** [IsResourceError(e, target)] *)
Definition IsResourceError (e : option (Ref ResourceError))
  (target : option error) : Res bool :=
  match target with
  | None => Ret (bool_decide (e = None))
  | Some (ResourceErr t) =>
      match e, t with
      | Some er, Some tr => Ret (fieldsMatch (deref er) (deref tr))
      | _, _ => Panic NilDereference            (* e.Method or t.Method *)
      end
  | Some _ => Ret false
  end.

(** The method [Is] of [*ResourceError], which [errors.Is] consults *)
Definition Is (e : option (Ref ResourceError)) (target : option error)
  : Res bool :=
  IsResourceError e target.

(** The specification's [matches(pattern, candidate)]. The pattern, whose
    zero fields are wildcards, is the [target] of the source, and the
    candidate is its receiver [e]: [errors.Is(err, pattern)] calls
    [err.Is(pattern)]. *)
Definition matches (pattern : option error)
  (candidate : option (Ref ResourceError)) : Res bool :=
  Is candidate pattern.

(** A field of the pattern agrees with the candidate's, as the
    specification words it. *)
Definition wildcard_or_equal (p c : ResourceError) : Prop :=
  (Method p = Method c \/ Method p = "") /\
  (URL p = URL c \/ URL p = "") /\
  (StatusCode p = StatusCode c \/ StatusCode p <= 0) /\
  (Message p = Message c \/ Message p = "").

Definition pattern404 : ResourceError := mkResourceError "" "" 404 "".
Definition patternPost404 : ResourceError := mkResourceError "POST" "" 404 "".
Definition got404 : ResourceError := mkResourceError "GET" "x" 404 "m".

End Errors.

(** ** values.go: metadata of a struct type and the binding of rows *)

Module Values.
Import Reflect Errors.

(** [ValueRange] *)
Record ValueRange : Type := mkValueRange {
  Range : string;
  MajorDimension : string;
  Values : list (list Value)
}.

(** [Header] *)
Record Header : Type := mkHeader {
  Name : string;
  FieldIndex : nat;
  FieldName : string;
  FieldType : GoType
}.

(** A struct instance: the values of its fields, by field index. *)
Definition Fieldvals : Type := list Value.

(** The method [DecodeField] of a pointer receiver. It is handed the
    struct it may write to, the header and the raw cell, and returns the
    struct as it left it together with its [error] result. *)
Definition FieldDecoder : Type :=
  Fieldvals -> Header -> Value -> Fieldvals * option error.

(** [metadata] *)
Record metadata : Type := mkMetadata {
  headers : list Header;
  typ : GoType;
  decodeFieldFunc : option FieldDecoder
}.

(** What a pointer handed to or made by the binder points to: a struct, or
    a slice of structs or of pointers to structs. *)
Inductive Elem : Type :=
| ElemPtr (a : nat)
| ElemVal (fs : Fieldvals).

Inductive Object : Type :=
| OStruct (fs : Fieldvals)
| OSlice (es : list Elem).

(** The memory the package reads and writes: the objects behind
    pointers, the package-level [cache], and the number of [metadata]
    objects built so far, which is the address of the next one. *)
Record State : Type := mkState {
  heap : list Object;
  cache : gmap GoType (Ref metadata);
  built : nat
}.

Definition initial : State := mkState [] ∅ 0.

(** The [dest interface{}] argument, by the [Kind] of its
    [reflect.Value]: anything that is not a pointer, or a pointer of type
    [*t], nil or to an address. *)
Inductive Dest : Type :=
| NotPointer
| Pointer (t : GoType) (a : option nat).

(** *** Stateful computations that may panic *)

Definition M (A : Type) : Type := State -> Res (A * State).

#[global] Instance M_ret : MRet M := fun A a st => Ret (a, st).
#[global] Instance M_bind : MBind M := fun A B k m st =>
  match m st with
  | Ret (a, st') => k a st'
  | Panic p => Panic p
  end.

Definition throw {A} (p : panic) : M A := fun _ => Panic p.

Definition lift {A} (r : Res A) : M A := fun st =>
  match r with
  | Ret a => Ret (a, st)
  | Panic p => Panic p
  end.

Definition loadStruct (a : nat) : M Fieldvals := fun st =>
  match heap st !! a with
  | Some (OStruct fs) => Ret (fs, st)
  | _ => Panic IllTyped
  end.

Definition loadSlice (a : nat) : M (list Elem) := fun st =>
  match heap st !! a with
  | Some (OSlice es) => Ret (es, st)
  | _ => Panic IllTyped
  end.

Definition store (a : nat) (o : Object) : M unit := fun st =>
  Ret (tt, mkState (<[a := o]> (heap st)) (cache st) (built st)).

(** [reflect.New(typ)] for a struct type: a pointer to a new struct whose
    fields hold their zero values. *)
Definition New (typ : GoType) : M nat := fun st =>
  Ret (length (heap st),
       mkState (heap st ++ [OStruct (zero ∘ Typ <$> Fields typ)])
               (cache st) (built st)).

(** *** getMetadata *)

(** The loop over the fields; [i] is the loop counter and [hs] the
    [headers] slice being appended to. *)
Fixpoint collectHeaders (i : nat) (fs : list StructField) (hs : list Header)
  : list Header :=
  match fs with
  | [] => hs
  | f :: rest =>
      if bool_decide (PkgPath f ≠ "") then collectHeaders (S i) rest hs
      else
        let name := Tag f in
        if bool_decide (name = "") then
          collectHeaders (S i) rest
            (hs ++ [mkHeader (Reflect.Name f) i (Reflect.Name f) (Typ f)])
        else if bool_decide (name = "-") then collectHeaders (S i) rest hs
        else
          collectHeaders (S i) rest
            (hs ++ [mkHeader name i (Reflect.Name f) (Typ f)])
  end.

Section Methods.

(** The method set of the program: [DecodeField typ] is the method
    [DecodeField] of [*typ] when that pointer type implements
    [FieldDecoder]. *)
Variable DecodeField : GoType -> option FieldDecoder.

(** The metadata that a cache miss builds. *)
Definition buildMetadata (typ : GoType) : metadata :=
  mkMetadata (collectHeaders 0 (Fields typ) []) typ (DecodeField typ).

Definition getMetadata (typ : GoType) : M (Ref metadata) := fun st =>
  match cache st !! typ with
  | Some meta => Ret (meta, st)
  | None =>
      if bool_decide (kind typ ≠ Struct) then Panic NotAStructType
      else
        let meta := mkRef (built st) (buildMetadata typ) in
        Ret (meta,
             mkState (heap st) (<[typ := meta]> (cache st)) (S (built st)))
  end.

(** *** decodeValue *)

(** The default assignment at the end of the loop body. *)
Definition assignField (h : Header) (value : Value) (fs : Fieldvals)
  : Res Fieldvals :=
  match typeOf value with
  | None => Panic ZeroValue                    (* val.Type() *)
  | Some vt =>
      if AssignableTo vt (FieldType h) then
        if bool_decide (FieldIndex h < length fs)%nat
        then Ret (<[FieldIndex h := assignTo (FieldType h) value]> fs)
        else Panic FieldOutOfRange
      else Ret fs
  end.

(** The loop body for one cell, once its header is fetched. The second
    component is [Some err] when the body returns [err] from
    [decodeValue], and [None] when the loop goes on. *)
Definition decodeCell (meta : metadata) (h : Header) (value : Value)
  (fs : Fieldvals) : Res (Fieldvals * option error) :=
  match decodeFieldFunc meta with
  | Some decode =>
      match value with
      | VNil => Panic ZeroValue                (* Call with a zero Value *)
      | _ =>
          let '(fs1, out) := decode fs h value in
          match out with
          | Some err =>
              if bool_decide (err ≠ ErrOK) then Ret (fs1, Some err)
              else
                match assignField h value fs1 with
                | Ret fs2 => Ret (fs2, None)
                | Panic p => Panic p
                end
          | None => Ret (fs1, None)
          end
      end
  | None =>
      match assignField h value fs with
      | Ret fs2 => Ret (fs2, None)
      | Panic p => Panic p
      end
  end.

(** [for i, value := range row], from index [i] on. *)
Fixpoint decodeCells (meta : metadata) (i : nat) (row : list Value)
  (fs : Fieldvals) : Res (Fieldvals * option error) :=
  match row with
  | [] => Ret (fs, None)
  | value :: rest =>
      match headers meta !! i with
      | None => Panic IndexOutOfRange          (* meta.headers[i] *)
      | Some h =>
          match decodeCell meta h value fs with
          | Ret (fs', None) => decodeCells meta (S i) rest fs'
          | Ret (fs', Some err) => Ret (fs', Some err)
          | Panic p => Panic p
          end
      end
  end.

(** What [decodeValue] does to the struct its pointer points to: the guard,
    then the loop. *)
Definition decodeFields (row : list Value) (meta : option metadata)
  (fs : Fieldvals) : Res (Fieldvals * option error) :=
  match meta with
  | None => Ret (fs, None)
  | Some m =>
      if bool_decide (length row = 0%nat)
         || bool_decide (length (headers m) = 0%nat)
      then Ret (fs, None)
      else decodeCells m 0 row fs
  end.

(** [decodeValue(row, meta, newStructOrPtr)]; the struct that
    [newStructOrPtr] points to is threaded through the loop and what the
    loop leaves is what the pointer then points to. *)
Definition decodeValue (row : list Value) (meta : option (Ref metadata))
  (newStructOrPtr : nat) : M (option error) :=
  match meta with
  | None => mret None
  | Some meta =>
      if bool_decide (length row = 0%nat)
         || bool_decide (length (headers (deref meta)) = 0%nat)
      then mret None
      else
        fs ← loadStruct newStructOrPtr;
        '(fs', err) ← lift (decodeCells (deref meta) 0 row fs);
        store newStructOrPtr (OStruct fs');;
        mret err
  end.

(** *** DecodeValueRange *)

(** [for _, row := range rangeValue.Values] *)
Fixpoint decodeRows (ptrElements : bool) (typ : GoType)
  (meta : Ref metadata) (elem : nat) (rows : list (list Value))
  : M (option error) :=
  match rows with
  | [] => mret None
  | row :: rest =>
      newStructValue ← New typ;
      err ← decodeValue row (Some meta) newStructValue;
      match err with
      | Some e => mret (Some e)
      | None =>
          item ← (if negb ptrElements
                  then fs ← loadStruct newStructValue; mret (ElemVal fs)
                  else mret (ElemPtr newStructValue));
          es ← loadSlice elem;
          store elem (OSlice (es ++ [item]));;
          decodeRows ptrElements typ meta elem rest
      end
  end.

(** [for _, rangeValue := range rangeValues] *)
Fixpoint decodeRanges (ptrElements : bool) (typ : GoType)
  (meta : Ref metadata) (elem : nat) (rangeValues : list ValueRange)
  : M (option error) :=
  match rangeValues with
  | [] => mret None
  | rangeValue :: rest =>
      err ← decodeRows ptrElements typ meta elem (Values rangeValue);
      match err with
      | Some e => mret (Some e)
      | None => decodeRanges ptrElements typ meta elem rest
      end
  end.

Definition DecodeValueRange (dest : Dest) (rangeValues : list ValueRange)
  : M (option error) :=
  match rangeValues with
  | [] => mret None
  | first :: _ =>
      match Values first with
      | [] => mret None
      | row0 :: _ =>
          match dest with
          | NotPointer => mret (Some (Errorf "not a pointer"))
          | Pointer _ None => throw ZeroValue  (* elem.Type() *)
          | Pointer typ (Some elem) =>
              if bool_decide (kind typ = Slice) then
                typ ← lift (Reflect.Elem typ);
                if bool_decide (kind typ = Ptr) then
                  elemElemType ← lift (Reflect.Elem typ);
                  if bool_decide (kind elemElemType = Struct) then
                    meta ← getMetadata elemElemType;
                    decodeRanges true elemElemType meta elem rangeValues
                  else
                    mret (Some (Errorf
                      "not a pointer to a slice of pointers of structs"))
                else if bool_decide (kind typ ≠ Struct) then
                  mret (Some (Errorf "not a pointer to a slice of structs"))
                else
                  meta ← getMetadata typ;
                  decodeRanges false typ meta elem rangeValues
              else if bool_decide (kind typ ≠ Struct) then
                mret (Some (Errorf "not a pointer to a struct"))
              else
                meta ← getMetadata typ;
                decodeValue row0 (Some meta) elem
          end
      end
  end.

End Methods.

(** *** What the specification says [describe] returns *)

Definition bindable (f : StructField) : bool :=
  bool_decide (PkgPath f = "") && negb (bool_decide (Tag f = "-")).

Definition displayName (f : StructField) : string :=
  if bool_decide (Tag f = "") then Reflect.Name f else Tag f.

Definition descriptor (p : nat * StructField) : Header :=
  mkHeader (displayName p.2) p.1 (Reflect.Name p.2) (Typ p.2).

(** One descriptor per exported field that is not tagged ["-"], in
    declaration order. *)
Definition describe (typ : GoType) : list Header :=
  descriptor <$> List.filter (fun p => bindable p.2) (imap pair (Fields typ)).

(** The struct that [reflect.New(typ)] points to. *)
Definition newStruct (typ : GoType) : Fieldvals := zero ∘ Typ <$> Fields typ.

(** The field values that default assignment leaves when the cells of
    [row] are paired with the headers [hs] position by position. *)
Definition assignCell (fs : Fieldvals) (p : Header * Value) : Fieldvals :=
  match typeOf p.2 with
  | Some vt =>
      if AssignableTo vt (FieldType p.1)
      then <[FieldIndex p.1 := assignTo (FieldType p.1) p.2]> fs
      else fs
  | None => fs
  end.

Definition assignAll (hs : list Header) (row : list Value) (fs : Fieldvals)
  : Fieldvals :=
  foldl assignCell fs (zip hs row).

(** The rows loop on values: the structs bound so far, in order, and
    the error that stopped the loop, if any. *)
Fixpoint bindRows (meta : metadata) (typ : GoType)
  (rows : list (list Value)) : Res (list Fieldvals * option error) :=
  match rows with
  | [] => Ret ([], None)
  | row :: rest =>
      match decodeFields row (Some meta) (newStruct typ) with
      | Ret (_, Some e) => Ret ([], Some e)
      | Ret (fs, None) =>
          match bindRows meta typ rest with
          | Ret (l, e) => Ret (fs :: l, e)
          | Panic p => Panic p
          end
      | Panic p => Panic p
      end
  end.

(** The elements appended for the structs [bound], the first of which
    was allocated at address [base]. *)
Definition appended (ptrElements : bool) (base : nat)
  (bound : list Fieldvals) : list Elem :=
  imap (fun k fs => if ptrElements then ElemPtr (base + k) else ElemVal fs)
       bound.

(** Every cache entry is what a miss would build. *)
Definition cache_ok (DecodeField : GoType -> option FieldDecoder)
  (st : State) : Prop :=
  forall t m, cache st !! t = Some m ->
              deref m = buildMetadata DecodeField t /\ kind t = Struct.

(** The metadata with its custom decoder taken away. *)
Definition withoutDecoder (meta : metadata) : metadata :=
  mkMetadata (headers meta) (typ meta) None.

(** A row binds to [fs]: [decodeValue] on a new struct returns no error
    and leaves [fs]. *)
Definition bindsTo (meta : metadata) (typ : GoType) (row : list Value)
  (fs : Fieldvals) : Prop :=
  decodeFields row (Some meta) (newStruct typ) = Ret (fs, None).

(** All the rows of the matrices, in encounter order. *)
Definition allRows (rangeValues : list ValueRange) : list (list Value) :=
  concat (Values <$> rangeValues).

(** Every cell carries a value, as the cells of a matrix do. *)
Definition typed (v : Value) : Prop := typeOf v <> None.

(** *** Test data: the struct types of values_test.go *)

Definition testRow : GoType :=
  TStruct "testRow" [MkField "Name" "" "" TString;
                     MkField "Other" "" "-" TString;
                     MkField "Age" "" "" TInt].

(** A record type with the fields [(Name string, Age int)]. *)
Definition person : GoType :=
  TStruct "person" [MkField "Name" "" "" TString; MkField "Age" "" "" TInt].

Definition testRowFieldDecoder : GoType :=
  TStruct "testRowFieldDecoder" [MkField "Name" "" "" TString].

(** A defined struct type, the struct type with the same field written
    out in place, and a record with a field of the defined type and a
    field of type [interface{}]. *)
Definition inner : GoType := TStruct "inner" [MkField "A" "" "" TInt].

Definition unnamed : GoType := TStruct "" [MkField "A" "" "" TInt].

Definition holder : GoType :=
  TStruct "holder" [MkField "In" "" "" inner; MkField "Any" "" "" TInterface].

Definition noMethods : GoType -> option FieldDecoder := fun _ => None.

Definition makis : ValueRange :=
  mkValueRange "" "" [[VString "makis"; VInt 27]].

Definition empty : ValueRange := mkValueRange "" "" [].

(** The cell 27 as a JSON number decodes, a [float64]. *)
Definition float27 : Value := VFloat64 0x403B000000000000.

(** An empty [[]testRow] (or [[]*testRow]) variable at address 0. *)
Definition emptySlice : State := mkState [OSlice []] ∅ 0.

(** The [DecodeField] of values_test.go on the cells of its test, which
    are strings: it sets [Name] to the cell followed by " custom value"
    and returns nil. On any other cell the type assertion [value.(string)]
    of the source panics, which a [FieldDecoder] here cannot do; the
    definition is used on string cells only. *)
Definition customValue : FieldDecoder := fun fs h value =>
  match value with
  | VString s => (<[0%nat := VString (s +:+ " custom value")]> fs, None)
  | _ => (fs, None)
  end.

(** A [DecodeField] that writes a fallback into [Name] and asks for the
    default assignment. *)
Definition fallbackThenDefault : FieldDecoder := fun fs h value =>
  (<[0%nat := VString "fallback"]> fs, Some ErrOK).

(** A [DecodeField] that rejects every cell. *)
Definition rejectAll : FieldDecoder := fun fs h value =>
  (fs, Some (Errorf "rejected")).

Definition methods (decode : FieldDecoder) : GoType -> option FieldDecoder :=
  fun t => if bool_decide (t = testRowFieldDecoder) then Some decode else None.

(** A row that default binding accepts for the headers [hs]: it is empty,
    or there is no header, or it has no more cells than headers and no nil
    cell. *)
Definition fits (hs : list Header) (row : list Value) : Prop :=
  row = [] \/ hs = [] \/ ((length row <= length hs)%nat /\ Forall typed row).

(** The panics that binding a row can raise. *)
Definition bindingPanic (p : panic) : bool :=
  match p with
  | ZeroValue | IndexOutOfRange | FieldOutOfRange | IllTyped => true
  | NilDereference | NotAStructType => false
  end.

(** Metadata is counted and addressed once per type: as many were built as
    there are entries, every entry was built by then, and no two types
    share an address. *)
Definition cache_once (st : State) : Prop :=
  size (cache st) = built st /\
  (forall t m, cache st !! t = Some m -> (addr m < built st)%nat) /\
  (forall t1 t2 m1 m2,
      cache st !! t1 = Some m1 -> cache st !! t2 = Some m2 ->
      addr m1 = addr m2 -> t1 = t2).

End Values.

(** ** The sheets of a spreadsheet (the second half of values.go) *)

Module Spreadsheets.

(** [SheetGrid] *)
Record SheetGrid : Type := mkSheetGrid {
  RowCount : Z;
  ColumnCount : Z;
  FrozenRowCount : Z
}.

(** [SheetProperties]; [SheetType] is a string type. *)
Record SheetProperties : Type := mkSheetProperties {
  ID : string;
  Title : string;
  Index : Z;
  SheetType : string;
  Grid : SheetGrid
}.

(** [Sheet] *)
Record Sheet : Type := mkSheet {
  Properties : SheetProperties
}.

(** [Range] and [NamedRange] *)
Record Range : Type := mkRange {
  SheetID : string;
  StartRowIndex : Z;
  EndRowIndex : Z;
  StartColumnIndex : Z;
  EndColumnIndex : Z
}.

Record NamedRange : Type := mkNamedRange {
  NamedRangeID : string;           (* ID *)
  NamedRangeName : string;         (* Name *)
  NamedRangeRange : Range          (* Range *)
}.

(** [SpreadsheetProperties] *)
Record SpreadsheetProperties : Type := mkSpreadsheetProperties {
  SpreadsheetTitle : string;       (* Title *)
  Locale : string;
  Timezone : string
}.

(** [Spreadsheet] *)
Record Spreadsheet : Type := mkSpreadsheet {
  SpreadsheetID : string;                          (* ID *)
  SpreadsheetProps : SpreadsheetProperties;        (* Properties *)
  Sheets : list Sheet;
  NamedRanges : list NamedRange;
  SpreadsheetURL : string                          (* URL *)
}.

(** [Sheet{}] *)
Definition zeroSheet : Sheet :=
  mkSheet (mkSheetProperties "" "" 0 "" (mkSheetGrid 0 0 0)).

(** [RangeAll] *)
Definition RangeAll (s : Sheet) : string :=
  "'" +:+ Title (Properties s) +:+ "'".

(** The loop of [GetSheet] over the sheets that are left. *)
Fixpoint findSheet (title : string) (sheets : list Sheet) : Sheet * bool :=
  match sheets with
  | [] => (zeroSheet, false)
  | s :: rest =>
      if bool_decide (Title (Properties s) = title)
         || bool_decide (ID (Properties s) = title)
      then (s, true)
      else findSheet title rest
  end.

(** [GetSheet] *)
Definition GetSheet (sd : Spreadsheet) (title : string) : Sheet * bool :=
  findSheet title (Sheets sd).

(** A spreadsheet whose first sheet has for id the title of the second. *)
Definition salesBook : Spreadsheet :=
  mkSpreadsheet "id" (mkSpreadsheetProperties "book" "" "")
    [mkSheet (mkSheetProperties "Sales" "Costs" 0 "GRID" (mkSheetGrid 1 1 0));
     mkSheet (mkSheetProperties "7" "Sales" 1 "GRID" (mkSheetGrid 1 1 0))]
    [] "".

(** A sheet answers to [title]. *)
Definition named (title : string) (s : Sheet) : Prop :=
  Title (Properties s) = title \/ ID (Properties s) = title.

End Spreadsheets.

(** ** client.go: one request/response cycle of [Do] and [ReadJSON] *)

Module Client.
Import Errors.

(** An [io.ReadCloser] that the cycle may hold. *)
Inductive Stream : Type :=
| Absent            (* never made *)
| Open              (* made and not closed *)
| Closed.           (* Close was called *)

(** The two resources of a cycle: the body of the response as the
    transport hands it over, and the gzip reader wrapped around it. *)
Record Resources : Type := mkResources {
  body : Stream;
  gzipReader : Stream
}.

(** A response as [c.HTTPClient.Do] returns it. [GzipHeader] is the error
    of [gzip.NewReader] on the body, [Content] what reading the body to
    its end yields ([None] when the read fails). *)
Record Response : Type := mkResponse {
  RequestMethod : string;
  RequestURL : string;
  Status : Z;
  ContentEncoding : string;      (* Header.Get("Content-Encoding") *)
  GzipHeader : option error;
  Content : option string
}.

(** The result of [c.HTTPClient.Do]: a response, whose body is never nil,
    or an error, with which a response may come, with or without a
    body. *)
Inductive RoundTrip : Type :=
| Replied (response : Response)
| Failed (err : error) (response : option bool).

(** Everything outside the package that a cycle depends on. *)
Record Exchange : Type := mkExchange {
  encodeErr : option error;      (* json.NewEncoder(buf).Encode(requestData) *)
  requestErr : option error;     (* http.NewRequest *)
  roundTrip : RoundTrip;         (* c.HTTPClient.Do(req.WithContext(ctx)) *)
  ctxErr : option error;         (* ctx.Err() when ctx.Done() is ready *)
  decodeErr : option error       (* json.NewDecoder(resp.Body).Decode(toPtr) *)
}.

(** The response [Do] returns; [wrapped] tells whether its [Body] is the
    [gzipReadCloser]. *)
Record Handle : Type := mkHandle {
  response : Response;
  wrapped : bool
}.

Definition StatusOK : Z := 200.

(** [gzipReadCloser.Close] closes the gzip reader and then the body. *)
Definition gzipReadCloser_Close (r : Resources) : Resources :=
  mkResources Closed Closed.

(** [resp.Body.Close()] *)
Definition Body_Close (h : Handle) (r : Resources) : Resources :=
  if wrapped h then gzipReadCloser_Close r
  else mkResources Closed (gzipReader r).

(** [Do]: its two results and the resources as it leaves them. *)
Definition Do (x : Exchange) : option Handle * option error * Resources :=
  match requestErr x with
  | Some err => (None, Some err, mkResources Absent Absent)
  | None =>
      match roundTrip x with
      | Failed err response =>
          let err := match ctxErr x with Some c => c | None => err end in
          match response with
          | Some true =>             (* response != nil && response.Body != nil *)
              (None, Some err, mkResources Closed Absent)
          | _ => (None, Some err, mkResources Absent Absent)
          end
      | Replied response =>
          if bool_decide (ContentEncoding response = "gzip") then
            match GzipHeader response with
            | Some err => (None, Some err, mkResources Open Absent)
            | None =>
                (Some (mkHandle response true), None, mkResources Open Open)
            end
          else (Some (mkHandle response false), None, mkResources Open Absent)
      end
  end.

(** [newResourceError]; the address of the new error is [a]. *)
Definition newResourceError (a : nat) (resp : Response) : error :=
  let cause := match Content resp with Some b => b | None => "unspecified" end in
  ResourceErr (Some (mkRef a (mkResourceError (RequestMethod resp)
                                (RequestURL resp) (Status resp) cause))).

(** [ReadJSON]: the error it returns and the resources when it has
    returned, the deferred [resp.Body.Close()] included. [requestData]
    tells whether the argument of that name is not nil. *)
Definition ReadJSON (requestData : bool) (x : Exchange)
  : option error * Resources :=
  match (if requestData then encodeErr x else None) with
  | Some err => (Some err, mkResources Absent Absent)
  | None =>
      match Do x with
      | (_, Some err, r) => (Some err, r)
      | (None, None, r) => (None, r)                  (* not returned by Do *)
      | (Some resp, None, r) =>
          let r := Body_Close resp r in               (* the defer *)
          if bool_decide (Status (response resp) ≠ StatusOK)
          then (Some (newResourceError 0 (response resp)), r)
          else (decodeErr x, r)
      end
  end.

(** A reply that announces gzip and whose body is not a gzip stream. *)
Definition notGzip : Response :=
  mkResponse "GET" "https://sheets.googleapis.com/v4/spreadsheets/id"
             200 "gzip" (Some (Errorf "gzip: invalid header")) (Some "{}").

Definition badGzipExchange : Exchange :=
  mkExchange None None (Replied notGzip) None None.

(** A 404 reply to a GET with the body "not found". *)
Definition notFound : Response :=
  mkResponse "GET" ".../values/A1:B2" 404 "" None (Some "not found").

End Client.

(** ** client.go: the request that [Do] sends and the calls of the API *)

Module Requests.
Import Reflect Errors Values.






Section Sending.

(** [url.Parse] and then [URL.Query()]: the values of the query a URL text
    carries. *)
Variable parseQuery : string -> gmap string (list string).



End Sending.

(** The arguments of a call of [c.ReadJSON]. *)
Record Call : Type := mkCall {
  method : string;
  url : string;
  requestData : option ValueRange;
  options : list (gmap string (list string))
}.

(** [ClearValuesResponse] and [UpdateValuesResponse] *)
Record ClearValuesResponse : Type := mkClearValuesResponse {
  ClearedSpreadsheetID : string;   (* SpreadsheetID *)
  ClearedRange : string
}.

Record UpdateValuesResponse : Type := mkUpdateValuesResponse {
  UpdatedSpreadsheetID : string;   (* SpreadsheetID *)
  UpdatedRange : string;
  UpdatedRows : Z;
  UpdatedColumns : Z;
  UpdatedCells : Z;
  UpdatedData : list ValueRange
}.

(** The URL templates, with [fmt.Sprintf] of strings as concatenation. *)
Definition spreadsheetURL (spreadsheetID : string) : string :=
  "https://sheets.googleapis.com/v4/spreadsheets/" +:+ spreadsheetID.

Definition spreadsheetValuesURL (spreadsheetID dataRange : string) : string :=
  spreadsheetURL spreadsheetID +:+ "/values/" +:+ dataRange.

Definition spreadsheetValuesBatchGetURL (spreadsheetID : string) : string :=
  spreadsheetURL spreadsheetID +:+ "/values:batchGet".

Definition spreadsheetValuesClearURL (spreadsheetID dataRange : string)
  : string :=
  spreadsheetValuesURL spreadsheetID dataRange +:+ ":clear".

(** A server that cannot be reached: every call fails and leaves what
    [toPtr] points to as it was. *)
Definition offline : forall T : Type, Call -> T -> option error * T :=
  fun T call toPtr => (Some (Errorf "offline"), toPtr).

Section Calls.

(** [c.ReadJSON] as its callers see it: given the call and what [toPtr]
    points to, the error returned and what [toPtr] points to then. *)
Variable readJSON : forall T : Type, Call -> T -> option error * T.

(** [Range] *)
Definition Range (spreadsheetID : string) (dataRanges : list string)
  : list ValueRange * option error :=
  match dataRanges with
  | [dataRange] =>
      let url := spreadsheetValuesURL spreadsheetID dataRange in
      let '(err, payload) :=
        readJSON ValueRange (mkCall "GET" url None []) (mkValueRange "" "" []) in
      match err with
      | Some e => ([], Some e)
      | None => ([payload], None)
      end
  | _ =>
      let url := spreadsheetValuesBatchGetURL spreadsheetID in
      let q : gmap string (list string) := {[ "ranges" := dataRanges ]} in
      let '(err, payload) :=
        readJSON (list ValueRange) (mkCall "GET" url None [q]) [] in
      match err with
      | Some e => ([], Some e)
      | None => (payload, None)
      end
  end.

(** [ReadSpreadsheet] *)
Definition ReadSpreadsheet (DecodeField : GoType -> option FieldDecoder)
  (dest : Dest) (spreadsheetID : string) (dataRanges : list string)
  : M (option error) :=
  match Range spreadsheetID dataRanges with
  | (_, Some err) => mret (Some err)
  | (valueRanges, None) => DecodeValueRange DecodeField dest valueRanges
  end.

(** [ClearSpreadsheet] *)
Definition ClearSpreadsheet (spreadsheetID dataRange : string)
  : ClearValuesResponse * option error :=
  let dataRange :=
    if bool_decide (dataRange = "") || bool_decide (dataRange = "*")
    then "A1:Z" else dataRange in
  let url := spreadsheetValuesClearURL spreadsheetID dataRange in
  let '(err, response) :=
    readJSON ClearValuesResponse (mkCall "POST" url None [])
             (mkClearValuesResponse "" "") in
  (response, err).

(** The two defaults [UpdateSpreadsheet] fills in. *)
Definition withDefaults (values : ValueRange) : ValueRange :=
  let values :=
    if bool_decide (Values.Range values = "")
       || bool_decide (Values.Range values = "*")
    then mkValueRange "A1:Z" (MajorDimension values) (Values values)
    else values in
  if bool_decide (MajorDimension values = "")
  then mkValueRange (Values.Range values) "ROWS" (Values values)
  else values.

(** [UpdateSpreadsheet] *)
Definition UpdateSpreadsheet (spreadsheetID : string) (values : ValueRange)
  : UpdateValuesResponse * option error :=
  let values := withDefaults values in
  let url := spreadsheetValuesURL spreadsheetID (Values.Range values) in
  let q : gmap string (list string) :=
    {[ "valueInputOption" := ["RAW"];
       "includeValuesInResponse" := ["false"] ]} in
  let '(err, response) :=
    readJSON UpdateValuesResponse (mkCall "PUT" url (Some values) [q])
             (mkUpdateValuesResponse "" "" 0 0 0 []) in
  (response, err).

End Calls.

End Requests.

(** * Properties *)

(** ** Assignability *)

Module ReflectFacts.
Import Reflect.

(** On this fragment a value can be stored as it is in a target of its own
    type, and a struct value also in a target with the same fields when
    one of the two struct types has no name. *)
Lemma directlyAssignable_spec (T V : GoType) :
  directlyAssignable T V = true <->
  T = V \/
  exists n m fs, T = TStruct n fs /\ V = TStruct m fs /\ (n = "" \/ m = "").
Proof.
  unfold directlyAssignable. case_bool_decide as E; [by split; auto|].
  split.
  - destruct T, V; cbn [hasName kind andb orb negb]; try done;
      unfold haveIdenticalUnderlyingType;
      repeat case_bool_decide; cbn [andb orb negb]; try done;
      try congruence.
    all: intros _; right; subst; eauto 10.
  - intros [->|(n & m & fs & -> & -> & Hnm)]; [done|].
    cbn [hasName kind]. unfold haveIdenticalUnderlyingType.
    rewrite (bool_decide_eq_false_2 _ E).
    destruct Hnm as [-> | ->]; repeat case_bool_decide; cbn; try done.
Qed.

(** [AssignableTo] adds the targets of type [interface{}]. *)
Lemma AssignableTo_spec (v t : GoType) :
  AssignableTo v t = true <->
  v = t \/ t = TInterface \/
  exists n m fs, v = TStruct n fs /\ t = TStruct m fs /\ (n = "" \/ m = "").
Proof.
  unfold AssignableTo, implements. rewrite orb_true_iff, directlyAssignable_spec,
    bool_decide_eq_true.
  split.
  - intros [[->|(n & m & fs & -> & -> & H)]|K]; eauto 10.
    + right. right. exists m, n, fs. tauto.
    + right. left. by destruct t.
  - intros [->|[->|(n & m & fs & -> & -> & H)]]; eauto.
    left. right. exists m, n, fs. tauto.
Qed.

(** What is stored is the cell itself, except that a struct value takes
    the struct type of the field. *)
Lemma assignTo_same (dst : GoType) (v : Value) :
  typeOf v = Some dst -> assignTo dst v = v.
Proof.
  destruct v; try done. cbn [typeOf assignTo]. intros [= ->].
  unfold directlyAssignable. by rewrite bool_decide_eq_true_2.
Qed.

Lemma assignTo_interface (v : Value) : assignTo TInterface v = v.
Proof.
  destruct v as [| | | | |t n]; try done. cbn [assignTo].
  destruct (directlyAssignable TInterface t) eqn:E; [|done].
  apply directlyAssignable_spec in E as [<-|(n0 & m & fs & ? & _)]; done.
Qed.

(** A field that was assigned holds a value of its own type, or of the
    type of the cell when the field is an [interface{}]. *)
Lemma assignTo_typeOf (dst : GoType) (v : Value) (vt : GoType) :
  typeOf v = Some vt -> AssignableTo vt dst = true ->
  typeOf (assignTo dst v)
  = Some (if bool_decide (dst = TInterface) then vt else dst).
Proof.
  intros Ht Ha. case_bool_decide as E.
  - subst dst. by rewrite assignTo_interface.
  - unfold AssignableTo, implements in Ha.
    rewrite orb_true_iff, bool_decide_eq_true in Ha.
    destruct Ha as [Ha|K]; [|by destruct dst].
    destruct v as [| | | | |t n]; cbn [typeOf assignTo] in *; simplify_eq;
      try (apply directlyAssignable_spec in Ha
             as [->|(n0 & m & fs & ? & ? & _)]; done).
    by rewrite Ha.
Qed.

End ReflectFacts.

(** ** The error model *)

Module ErrorsFacts.
Import Errors.

Lemma fieldsMatch_spec (c p : ResourceError) :
  fieldsMatch c p = true <-> wildcard_or_equal p c.
Proof.
  unfold fieldsMatch, wildcard_or_equal.
  rewrite !andb_true_iff, !orb_true_iff, !bool_decide_eq_true.
  intuition congruence.
Qed.

(** A typed nil pointer makes both predicates dereference nil. *)
Lemma IsStatusError_typed_nil (statusCode : Z) :
  IsStatusError statusCode (Some (ResourceErr None)) = Panic NilDereference.
Proof. reflexivity. Qed.

Lemma IsResourceError_nil_receiver (t : option (Ref ResourceError)) :
  IsResourceError None (Some (ResourceErr t)) = Panic NilDereference.
Proof. reflexivity. Qed.

(** C2: [matches(pattern, candidate)] returns true exactly when both are
    absent, or both are ResourceErrors and every field of the pattern is
    equal to the candidate's or is the zero value (empty string,
    non-positive status); the pattern with status 404 alone matches the
    GET error with status 404, and the pattern with method POST and status
    404 does not. *)
Theorem matches_wildcard_pattern :
  (forall pattern candidate,
      matches pattern candidate = Ret true <->
      (pattern = None /\ candidate = None) \/
      (exists p c, pattern = Some (ResourceErr (Some p)) /\
                   candidate = Some c /\
                   wildcard_or_equal (deref p) (deref c))) /\
  (forall a b, matches (Some (ResourceErr (Some (mkRef a pattern404))))
                       (Some (mkRef b got404)) = Ret true) /\
  (forall a b, matches (Some (ResourceErr (Some (mkRef a patternPost404))))
                       (Some (mkRef b got404)) = Ret false).
Proof.
  split; [|split; reflexivity].
  intros pattern candidate. unfold matches, Is, IsResourceError. split.
  - destruct pattern as [[|[p|]|msg]|], candidate as [c|];
      try discriminate.
    + intros [= E]. right. exists p, c. rewrite <- fieldsMatch_spec. auto.
    + intros _. left. auto.
  - intros [[-> ->]|(p & c & -> & -> & H)]; [reflexivity|].
    apply fieldsMatch_spec in H. rewrite H. reflexivity.
Qed.

(** C10: [IsStatusError] returns (nil, false) for a nil target and for a
    target that is not a [*ResourceError]; for a target holding a
    [*ResourceError] object it returns that same pointer, which is not
    nil, with a boolean that is true exactly when the status codes are
    equal, so the pointer is returned also when the boolean is false. *)
Theorem IsStatusError_returns_target :
  (forall statusCode, IsStatusError statusCode None = Ret (None, false)) /\
  (forall statusCode, IsStatusError statusCode (Some ErrOK) = Ret (None, false)) /\
  (forall statusCode msg,
      IsStatusError statusCode (Some (Errorf msg)) = Ret (None, false)) /\
  (forall statusCode r,
      exists ok, IsStatusError statusCode (Some (ResourceErr (Some r)))
                 = Ret (Some r, ok) /\
                 (ok = true <-> StatusCode (deref r) = statusCode)) /\
  (forall statusCode r,
      StatusCode (deref r) <> statusCode ->
      IsStatusError statusCode (Some (ResourceErr (Some r)))
      = Ret (Some r, false)).
Proof.
  repeat split; try reflexivity.
  - intros statusCode r. eexists. split; [reflexivity|].
    apply bool_decide_eq_true.
  - intros statusCode r H. simpl. rewrite bool_decide_eq_false_2; auto.
Qed.

Lemma IsStatusError_returns_target_witness :
  StatusCode got404 <> 500 /\
  IsStatusError 500 (Some (ResourceErr (Some (mkRef 7%nat got404))))
  = Ret (Some (mkRef 7%nat got404), false).
Proof.
  split; [discriminate|].
  apply (proj2 (proj2 (proj2 (proj2 IsStatusError_returns_target)))).
  discriminate.
Defined.

Lemma matches_refs (p c : Ref ResourceError) :
  matches (Some (ResourceErr (Some p))) (Some c)
  = Ret (fieldsMatch (deref c) (deref p)).
Proof. reflexivity. Qed.

(** Matching is a preorder on ResourceErrors: an error matches any error
    with the same fields, and a pattern that matches a second pattern
    matches whatever the second one matches. *)
Theorem matches_preorder :
  (forall r r' : Ref ResourceError,
      deref r = deref r' ->
      matches (Some (ResourceErr (Some r))) (Some r') = Ret true) /\
  (forall p q c : Ref ResourceError,
      matches (Some (ResourceErr (Some p))) (Some q) = Ret true ->
      matches (Some (ResourceErr (Some q))) (Some c) = Ret true ->
      matches (Some (ResourceErr (Some p))) (Some c) = Ret true).
Proof.
  split.
  - intros r r' E. rewrite matches_refs. f_equal. apply fieldsMatch_spec.
    rewrite E. unfold wildcard_or_equal. auto.
  - intros p q c. rewrite !matches_refs. intros [= H1] [= H2]. f_equal.
    apply fieldsMatch_spec in H1, H2. apply fieldsMatch_spec.
    unfold wildcard_or_equal in *.
    destruct H1 as (M1 & U1 & S1 & G1), H2 as (M2 & U2 & S2 & G2).
    repeat split.
    + destruct M1 as [M1|M1]; [|auto]. destruct M2 as [M2|M2]; [left|right]; congruence.
    + destruct U1 as [U1|U1]; [|auto]. destruct U2 as [U2|U2]; [left|right]; congruence.
    + lia.
    + destruct G1 as [G1|G1]; [|auto]. destruct G2 as [G2|G2]; [left|right]; congruence.
Qed.

Lemma matches_preorder_witness :
  matches (Some (ResourceErr (Some (mkRef 1%nat pattern404))))
          (Some (mkRef 3%nat got404)) = Ret true.
Proof.
  apply (proj2 matches_preorder (mkRef 1%nat pattern404)
           (mkRef 2%nat (mkResourceError "GET" "" 404 "")) (mkRef 3%nat got404));
    reflexivity.
Defined.

(** The two extremes of a pattern: with every field at its zero value it
    matches every ResourceError; with every field set (and a positive
    status) it matches exactly the errors equal to it. *)
Theorem matches_extremes (p c : Ref ResourceError) :
  (Method (deref p) = "" -> URL (deref p) = "" ->
   StatusCode (deref p) <= 0 -> Message (deref p) = "" ->
   matches (Some (ResourceErr (Some p))) (Some c) = Ret true) /\
  (Method (deref p) <> "" -> URL (deref p) <> "" ->
   0 < StatusCode (deref p) -> Message (deref p) <> "" ->
   (matches (Some (ResourceErr (Some p))) (Some c) = Ret true <->
    deref c = deref p)).
Proof.
  rewrite matches_refs. split.
  - intros M U S G. f_equal. apply fieldsMatch_spec. unfold wildcard_or_equal.
    auto.
  - intros M U S G. split.
    + intros [= H]. apply fieldsMatch_spec in H.
      destruct H as (HM & HU & HS & HG).
      destruct (deref p) as [pm pu ps pg], (deref c) as [cm cu cs cg].
      simpl in *. f_equal; [intuition congruence|intuition congruence|lia|intuition congruence].
    + intros ->. f_equal. apply fieldsMatch_spec. unfold wildcard_or_equal. auto.
Qed.

Lemma matches_extremes_witness :
  matches (Some (ResourceErr (Some (mkRef 1%nat (mkResourceError "" "" 0 "")))))
          (Some (mkRef 3%nat got404)) = Ret true /\
  (matches (Some (ResourceErr (Some (mkRef 1%nat got404))))
           (Some (mkRef 3%nat got404)) = Ret true <-> got404 = got404).
Proof.
  split.
  - apply (proj1 (matches_extremes (mkRef 1%nat (mkResourceError "" "" 0 ""))
                    (mkRef 3%nat got404))); simpl; (reflexivity || lia).
  - apply (proj2 (matches_extremes (mkRef 1%nat got404) (mkRef 3%nat got404)));
      simpl; (discriminate || lia).
Defined.

(** For a positive status code, [IsStatusError] says true exactly when
    the error matches, through [Is], the pattern that only has that
    status; for a code that is not positive the pattern matches every
    error. *)
Theorem IsStatusError_as_pattern (statusCode : Z) (r : Ref ResourceError)
  (a : nat) :
  (0 < statusCode ->
   (IsStatusError statusCode (Some (ResourceErr (Some r))) = Ret (Some r, true) <->
    Is (Some r)
       (Some (ResourceErr (Some (mkRef a (mkResourceError "" "" statusCode "")))))
    = Ret true)) /\
  (statusCode <= 0 ->
   Is (Some r)
      (Some (ResourceErr (Some (mkRef a (mkResourceError "" "" statusCode "")))))
   = Ret true).
Proof.
  unfold Is, IsResourceError, IsStatusError, fieldsMatch. simpl.
  rewrite !orb_true_r. simpl. split.
  - intros Hpos. rewrite andb_true_r.
    rewrite (bool_decide_eq_false_2 (statusCode <= 0)) by lia.
    rewrite orb_false_r. split; intros [= H]; by rewrite H.
  - intros Hneg. rewrite (bool_decide_eq_true_2 (statusCode <= 0)) by lia.
    by rewrite orb_true_r.
Qed.

Lemma IsStatusError_as_pattern_witness :
  IsStatusError 404 (Some (ResourceErr (Some (mkRef 3%nat got404))))
  = Ret (Some (mkRef 3%nat got404), true) <->
  Is (Some (mkRef 3%nat got404))
     (Some (ResourceErr (Some (mkRef 0%nat (mkResourceError "" "" 404 "")))))
  = Ret true.
Proof.
  apply (proj1 (IsStatusError_as_pattern 404 (mkRef 3%nat got404) 0%nat)). lia.
Defined.

End ErrorsFacts.

(** ** The metadata reflector and the binding engine *)

Module ValuesFacts.
Import Reflect Errors Values.

Lemma collectHeaders_spec (fs : list StructField) (i : nat) (hs : list Header) :
  collectHeaders i fs hs =
  hs ++ (descriptor <$> List.filter (fun p => bindable p.2)
                                    (imap (fun j f => ((i + j)%nat, f)) fs)).
Proof.
  revert i hs. induction fs as [|f rest IH]; intros i hs; simpl.
  - by rewrite app_nil_r.
  - assert (Hshift : imap ((fun j f => ((i + j)%nat, f)) ∘ S) rest
                     = imap (fun j f => ((S i + j)%nat, f)) rest).
    { apply imap_ext. intros j x _. simpl. f_equal. lia. }
    rewrite Hshift, Nat.add_0_r. unfold bindable at 1. simpl.
    destruct f as [n p tg t]; simpl.
    repeat case_bool_decide; simplify_eq; simpl;
      rewrite IH, <- ?app_assoc; try reflexivity.
    unfold descriptor, displayName. simpl.
    rewrite bool_decide_eq_false_2 by done. reflexivity.
Qed.

Lemma buildMetadata_headers DecodeField (typ : GoType) :
  headers (buildMetadata DecodeField typ) = describe typ.
Proof.
  unfold buildMetadata, describe. simpl. rewrite collectHeaders_spec. simpl.
  done.
Qed.

Lemma filter_indices (fs : list StructField) (i : nat) :
  let l := FieldIndex <$> (descriptor <$> List.filter (fun p => bindable p.2)
                                    (imap (fun j f => ((i + j)%nat, f)) fs)) in
  NoDup l /\ Forall (fun k => i <= k < i + length fs)%nat l.
Proof.
  revert i. induction fs as [|f rest IH]; intros i; simpl.
  - split; constructor.
  - assert (Hshift : imap ((fun j f => ((i + j)%nat, f)) ∘ S) rest
                     = imap (fun j f => ((S i + j)%nat, f)) rest).
    { apply imap_ext. intros j x _. simpl. f_equal. lia. }
    rewrite Hshift. destruct (IH (S i)) as [Hnd Hall].
    assert (Hall' : Forall (fun k => i <= k < i + S (length rest))%nat
        (FieldIndex <$> (descriptor <$> List.filter (fun p => bindable p.2)
                           (imap (fun j f => ((S i + j)%nat, f)) rest)))).
    { eapply Forall_impl; [exact Hall|]. simpl. intros; lia. }
    destruct (bindable f); simpl; [|done].
    split.
    + constructor; [|done]. intros Hin.
      rewrite Forall_forall in Hall. apply Hall in Hin. lia.
    + constructor; [lia|done].
Qed.

Lemma describe_indices (typ : GoType) :
  NoDup (FieldIndex <$> describe typ) /\
  Forall (fun h => FieldIndex h < length (Fields typ))%nat (describe typ).
Proof.
  unfold describe.
  pose proof (filter_indices (Fields typ) 0) as [Hnd Hall]. simpl in *.
  split; [done|].
  rewrite Forall_fmap in Hall. eapply Forall_impl; [exact Hall|].
  simpl. intros; lia.
Qed.

Section Facts.
Variable DecodeField : GoType -> option FieldDecoder.

Lemma cache_ok_initial : cache_ok DecodeField initial.
Proof. intros t m H. simpl in H. rewrite lookup_empty in H. discriminate. Qed.

Lemma getMetadata_hit (typ : GoType) (st : State) (m : Ref metadata) :
  cache st !! typ = Some m -> getMetadata DecodeField typ st = Ret (m, st).
Proof. intros H. unfold getMetadata. rewrite H. reflexivity. Qed.

Lemma getMetadata_miss (typ : GoType) (st : State) :
  cache st !! typ = None -> kind typ = Struct ->
  getMetadata DecodeField typ st =
  Ret (mkRef (built st) (buildMetadata DecodeField typ),
       mkState (heap st)
               (<[typ := mkRef (built st) (buildMetadata DecodeField typ)]>
                  (cache st))
               (S (built st))).
Proof.
  intros H K. unfold getMetadata. rewrite H.
  rewrite bool_decide_eq_false_2; [reflexivity|]. intros N. auto.
Qed.

Lemma getMetadata_not_struct (typ : GoType) (st : State) :
  cache st !! typ = None -> kind typ <> Struct ->
  getMetadata DecodeField typ st = Panic NotAStructType.
Proof.
  intros H K. unfold getMetadata. rewrite H.
  rewrite bool_decide_eq_true_2; [reflexivity|]. auto.
Qed.

(** A call stores what it returns, keeps every entry there was, leaves
    the heap alone and keeps the cache sound. *)
Lemma getMetadata_returns (typ : GoType) (st st' : State) (m : Ref metadata) :
  getMetadata DecodeField typ st = Ret (m, st') ->
  cache st' !! typ = Some m /\
  heap st' = heap st /\
  (forall t m0, cache st !! t = Some m0 -> cache st' !! t = Some m0) /\
  (cache_ok DecodeField st -> cache_ok DecodeField st' /\
                              deref m = buildMetadata DecodeField typ).
Proof.
  unfold getMetadata. destruct (cache st !! typ) as [m0|] eqn:E.
  - intros [= <- <-]. split; [done|]. split; [done|]. split; [auto|].
    intros Hok. split; [done|]. apply (Hok _ _ E).
  - case_bool_decide as K; [discriminate|]. intros [= <- <-]. simpl.
    split; [apply lookup_insert_eq|]. split; [done|]. split.
    + intros t m0 H. rewrite lookup_insert_ne; [done|]. congruence.
    + intros Hok. split; [|done].
      intros t m0. simpl. destruct (decide (typ = t)) as [->|N].
      * rewrite lookup_insert_eq. intros [= <-]. simpl.
        split; [done|]. destruct (decide (kind t = Struct)); tauto.
      * rewrite lookup_insert_ne by done. apply Hok.
Qed.

Lemma getMetadata_total (typ : GoType) (st : State) :
  cache_ok DecodeField st -> kind typ = Struct ->
  exists a st',
    getMetadata DecodeField typ st
    = Ret (mkRef a (buildMetadata DecodeField typ), st') /\
    heap st' = heap st /\ cache_ok DecodeField st'.
Proof.
  intros Hok K. destruct (cache st !! typ) as [m|] eqn:E.
  - destruct (Hok _ _ E) as [Hm _]. destruct m as [a c]. simpl in Hm. subst c.
    exists a, st. rewrite (getMetadata_hit _ _ _ E). auto.
  - pose proof (getMetadata_miss _ _ E K) as Hm.
    destruct (getMetadata_returns _ _ _ _ Hm) as (_ & Hh & _ & Hc).
    eexists _, _. split; [exact Hm|]. split; [exact Hh|]. apply Hc, Hok.
Qed.
End Facts.

(** *** Default assignment *)

Lemma assignCell_length (fs : Fieldvals) (p : Header * Value) :
  length (assignCell fs p) = length fs.
Proof.
  unfold assignCell. destruct (typeOf p.2); [|done].
  destruct (AssignableTo _ _); [|done]. apply length_insert.
Qed.

Lemma assignAll_length (hs : list Header) (row : list Value) (fs : Fieldvals) :
  length (assignAll hs row fs) = length fs.
Proof.
  unfold assignAll. revert row fs.
  induction hs as [|h hs IH]; intros [|v row] fs; simpl; try done.
  rewrite IH. apply assignCell_length.
Qed.

Lemma assignCell_other (fs : Fieldvals) (p : Header * Value) (j : nat) :
  FieldIndex p.1 <> j -> assignCell fs p !! j = fs !! j.
Proof.
  intros N. unfold assignCell. destruct (typeOf p.2); [|done].
  destruct (AssignableTo _ _); [|done]. by apply list_lookup_insert_ne.
Qed.

Lemma assignAll_other (hs : list Header) (row : list Value) (fs : Fieldvals)
  (j : nat) :
  j ∉ FieldIndex <$> take (length row) hs ->
  assignAll hs row fs !! j = fs !! j.
Proof.
  unfold assignAll. revert row fs.
  induction hs as [|h hs IH]; intros [|v row] fs; simpl; try done.
  intros N. rewrite not_elem_of_cons in N. destruct N as [N1 N2].
  rewrite IH by done. apply assignCell_other. simpl. congruence.
Qed.

Lemma assignAll_at (hs : list Header) (row : list Value) (fs : Fieldvals)
  (i : nat) (h : Header) (v : Value) (vt : GoType) :
  NoDup (FieldIndex <$> hs) ->
  hs !! i = Some h -> row !! i = Some v -> typeOf v = Some vt ->
  (FieldIndex h < length fs)%nat ->
  assignAll hs row fs !! FieldIndex h =
  if AssignableTo vt (FieldType h) then Some (assignTo (FieldType h) v)
  else fs !! FieldIndex h.
Proof.
  revert row fs i.
  induction hs as [|h0 hs IH]; intros [|v0 row] fs i Hnd Hh Hv Ht Hlt;
    try done.
  simpl in Hnd. apply NoDup_cons in Hnd as [Hnot Hnd].
  destruct i as [|i]; simpl in Hh, Hv.
  - injection Hh as ->. injection Hv as ->.
    change (assignAll (h :: hs) (v :: row) fs)
      with (assignAll hs row (assignCell fs (h, v))).
    rewrite assignAll_other.
    + unfold assignCell. simpl. rewrite Ht.
      destruct (AssignableTo vt (FieldType h)); [|done].
      by apply list_lookup_insert_eq.
    + intros Hin. apply Hnot.
      eapply list_elem_of_fmap in Hin as (x & -> & Hin).
      apply list_elem_of_fmap. exists x. split; [done|].
      apply list_elem_of_lookup in Hin as [k Hk].
      apply lookup_take_Some in Hk as [Hk _].
      eapply list_elem_of_lookup_2, Hk.
  - change (assignAll (h0 :: hs) (v0 :: row) fs)
      with (assignAll hs row (assignCell fs (h0, v0))).
    rewrite (IH row _ i Hnd Hh Hv Ht) by (by rewrite assignCell_length).
    rewrite assignCell_other; [done|]. simpl. intros E. apply Hnot.
    rewrite E. apply list_elem_of_fmap. exists h. split; [done|].
    eapply list_elem_of_lookup_2, Hh.
Qed.

Lemma decodeCell_default (meta : metadata) (h : Header) (v : Value)
  (vt : GoType) (fs : Fieldvals) :
  decodeFieldFunc meta = None -> typeOf v = Some vt ->
  (FieldIndex h < length fs)%nat ->
  decodeCell meta h v fs = Ret (assignCell fs (h, v), None).
Proof.
  intros Hno Ht Hlt. unfold decodeCell, assignField, assignCell.
  rewrite Hno, Ht. simpl. rewrite Ht.
  destruct (AssignableTo vt (FieldType h)); [|done].
  by rewrite bool_decide_eq_true_2.
Qed.

Lemma decodeCells_default (meta : metadata) (row : list Value) (i : nat)
  (fs : Fieldvals) :
  decodeFieldFunc meta = None -> Forall typed row ->
  (i + length row <= length (headers meta))%nat ->
  Forall (fun h => FieldIndex h < length fs)%nat (headers meta) ->
  decodeCells meta i row fs
  = Ret (assignAll (drop i (headers meta)) row fs, None).
Proof.
  intros Hno. revert i fs.
  induction row as [|v row IH]; intros i fs Hty Hlen Hidx; simpl.
  - unfold assignAll. by rewrite zip_with_nil_r.
  - simpl in Hlen. apply Forall_cons in Hty as [Hv Hty].
    destruct (lookup_lt_is_Some_2 (headers meta) i) as [h Hh]; [lia|].
    rewrite Hh. unfold typed in Hv.
    destruct (typeOf v) as [vt|] eqn:Ht; [|done].
    rewrite (decodeCell_default meta h v vt fs Hno Ht).
    + rewrite IH; try done; try lia.
      * by rewrite (drop_S _ _ _ Hh).
      * eapply Forall_impl; [exact Hidx|]. simpl. intros.
        by rewrite assignCell_length.
    + rewrite Forall_forall in Hidx. apply Hidx.
      eapply list_elem_of_lookup_2, Hh.
Qed.

(** *** Bounds of the header lookup *)






Lemma decodeValue_spec (row : list Value) (meta : option (Ref metadata))
  (ptr : nat) (st : State) (fs : Fieldvals) :
  heap st !! ptr = Some (OStruct fs) ->
  decodeValue row meta ptr st =
  match decodeFields row (deref <$> meta) fs with
  | Ret (fs', err) =>
      Ret (err, mkState (<[ptr := OStruct fs']> (heap st)) (cache st) (built st))
  | Panic p => Panic p
  end.
Proof.
  intros H.
  assert (Hid : Ret (None, st)
    = Ret (@None error,
           mkState (<[ptr := OStruct fs]> (heap st)) (cache st) (built st))).
  { rewrite list_insert_id by done. by destruct st. }
  unfold decodeValue, decodeFields. destruct meta as [m|]; [|exact Hid].
  cbn [fmap option_fmap option_map].
  destruct (bool_decide (length row = 0%nat)
            || bool_decide (length (headers (deref m)) = 0%nat)); [exact Hid|].
  unfold mbind, M_bind, loadStruct, lift. rewrite H.
  destruct (decodeCells (deref m) 0 row fs) as [[fs' err]|p]; reflexivity.
Qed.

Lemma decodeRows_step (ptrElements : bool) (typ : GoType)
  (meta : Ref metadata) (elem : nat) (row : list Value)
  (rest : list (list Value)) (st : State) (es : list Elem) :
  heap st !! elem = Some (OSlice es) ->
  decodeRows ptrElements typ meta elem (row :: rest) st =
  match decodeFields row (Some (deref meta)) (newStruct typ) with
  | Ret (fs', Some e) =>
      Ret (Some e, mkState (heap st ++ [OStruct fs']) (cache st) (built st))
  | Ret (fs', None) =>
      decodeRows ptrElements typ meta elem rest
        (mkState
           (<[elem := OSlice (es ++ [if ptrElements
                                     then ElemPtr (length (heap st))
                                     else ElemVal fs'])]> (heap st)
            ++ [OStruct fs'])
           (cache st) (built st))
  | Panic p => Panic p
  end.
Proof.
  intros He. pose proof (lookup_lt_Some _ _ _ He) as Hlt.
  cbn [decodeRows]. unfold mbind at 1, M_bind at 1, New at 1. cbn beta iota.
  unfold mbind at 1, M_bind at 1.
  rewrite (decodeValue_spec _ _ _ _ (newStruct typ)).
  2:{ simpl. rewrite lookup_app_r by done. by rewrite Nat.sub_diag. }
  change (deref <$> Some meta) with (Some (deref meta)).
  destruct (decodeFields row (Some (deref meta)) (newStruct typ))
    as [[fs' [e|]]|p]; simpl; try done.
  - f_equal. f_equal. f_equal.
    rewrite insert_app_r_alt by done. by rewrite Nat.sub_diag.
  - assert (Hh : <[length (heap st) := OStruct fs']>
                   (heap st ++ [OStruct (zero ∘ Typ <$> Fields typ)])
                 = heap st ++ [OStruct fs']).
    { rewrite insert_app_r_alt by done. by rewrite Nat.sub_diag. }
    unfold mbind, M_bind, loadStruct, loadSlice, store, mret, M_ret.
    destruct ptrElements; simpl; rewrite Hh.
    + rewrite lookup_app_l by done. rewrite He. simpl.
      by rewrite insert_app_l.
    + rewrite lookup_app_r by done. rewrite Nat.sub_diag. simpl.
      rewrite lookup_app_l by done. rewrite He. simpl.
      by rewrite insert_app_l.
Qed.

Lemma decodeRows_spec (ptrElements : bool) (typ : GoType)
  (meta : Ref metadata) (elem : nat) (rows : list (list Value))
  (st : State) (es : list Elem) :
  heap st !! elem = Some (OSlice es) ->
  match bindRows (deref meta) typ rows with
  | Panic p => decodeRows ptrElements typ meta elem rows st = Panic p
  | Ret (bound, err) =>
      exists st',
        decodeRows ptrElements typ meta elem rows st = Ret (err, st') /\
        cache st' = cache st /\ built st' = built st /\
        heap st' !! elem
        = Some (OSlice (es ++ appended ptrElements (length (heap st)) bound)) /\
        (length (heap st) <= length (heap st'))%nat /\
        (forall a, (a < length (heap st))%nat -> a <> elem ->
                   heap st' !! a = heap st !! a) /\
        (forall k fs, bound !! k = Some fs ->
                      heap st' !! (length (heap st) + k)%nat = Some (OStruct fs))
  end.
Proof.
  revert st es. induction rows as [|row rest IH]; intros st es He.
  - simpl. exists st. rewrite app_nil_r. repeat split; auto. intros k fs H.
    by rewrite lookup_nil in H.
  - pose proof (lookup_lt_Some _ _ _ He) as Hlt.
    rewrite (decodeRows_step _ _ _ _ _ _ _ _ He). cbn [bindRows].
    destruct (decodeFields row (Some (deref meta)) (newStruct typ))
      as [[fs' [e|]]|p]; [| |done].
    + eexists. split; [reflexivity|]. simpl. rewrite app_nil_r.
      rewrite length_app. simpl.
      split; [done|]. split; [done|].
      split; [by rewrite lookup_app_l|]. split; [lia|].
      split; [intros a Ha _; by rewrite lookup_app_l|].
      intros k fs H. by rewrite lookup_nil in H.
    + set (item := if ptrElements then ElemPtr (length (heap st))
                   else ElemVal fs').
      set (st1 := mkState _ _ _).
      assert (Hlen1 : length (heap st1) = S (length (heap st))).
      { simpl. rewrite length_app, length_insert. simpl. lia. }
      assert (He1 : heap st1 !! elem = Some (OSlice (es ++ [item]))).
      { simpl. rewrite lookup_app_l by (by rewrite length_insert).
        by apply list_lookup_insert_eq. }
      specialize (IH st1 _ He1).
      destruct (bindRows (deref meta) typ rest) as [[l e]|p]; [|done].
      destruct IH as (st' & Hrun & Hc & Hb & Hs & Hl & Hold & Hnew).
      exists st'. split; [done|]. split; [done|]. split; [done|].
      rewrite Hlen1 in *.
      split; [|split; [lia|split]].
      * rewrite Hs. f_equal. f_equal. rewrite <- app_assoc. f_equal.
        unfold appended. simpl. rewrite Nat.add_0_r. f_equal.
        apply imap_ext. intros k x _. simpl.
        by replace (length (heap st) + S k)%nat
          with (S (length (heap st) + k))%nat by lia.
      * intros a Ha Hne. rewrite Hold by (done || lia). simpl.
        rewrite lookup_app_l by (by rewrite length_insert).
        by rewrite list_lookup_insert_ne.
      * intros [|k] fs H; simpl in H.
        -- injection H as ->. rewrite Nat.add_0_r.
           rewrite Hold by lia. simpl.
           rewrite lookup_app_r by (by rewrite length_insert).
           by rewrite length_insert, Nat.sub_diag.
        -- replace (length (heap st) + S k)%nat
             with (S (length (heap st)) + k)%nat by lia.
           by apply Hnew.
Qed.

Lemma decodeRows_app (ptrElements : bool) (typ : GoType)
  (meta : Ref metadata) (elem : nat) (r1 r2 : list (list Value)) (st : State) :
  decodeRows ptrElements typ meta elem (r1 ++ r2) st =
  match decodeRows ptrElements typ meta elem r1 st with
  | Ret (None, st') => decodeRows ptrElements typ meta elem r2 st'
  | other => other
  end.
Proof.
  revert st. induction r1 as [|row r1 IH]; intros st; [done|].
  cbn [app decodeRows]. unfold mbind, M_bind in *.
  unfold New. cbn beta iota.
  match goal with
  | |- context [decodeValue ?r ?m ?a ?s] =>
      destruct (decodeValue r m a s) as [[[e|] st2]|p]; try done
  end.
  unfold loadStruct, loadSlice, store, mret, M_ret.
  destruct ptrElements; cbn beta iota delta [negb];
    repeat match goal with
      | |- context [heap st2 !! ?a] =>
          destruct (heap st2 !! a) as [[?|?]|]; try done
      end; apply IH.
Qed.

Lemma decodeRanges_rows (ptrElements : bool) (typ : GoType)
  (meta : Ref metadata) (elem : nat) (rangeValues : list ValueRange)
  (st : State) :
  decodeRanges ptrElements typ meta elem rangeValues st
  = decodeRows ptrElements typ meta elem (allRows rangeValues) st.
Proof.
  revert st. induction rangeValues as [|rv rest IH]; intros st; [done|].
  unfold allRows. cbn [fmap list_fmap concat decodeRanges].
  rewrite decodeRows_app. unfold mbind, M_bind.
  destruct (decodeRows _ _ _ _ (Values rv) st) as [[[e|] st']|p];
    first [done | apply IH].
Qed.

Section Bind.
Variable DecodeField : GoType -> option FieldDecoder.

Lemma bindRows_all (meta : metadata) (typ : GoType)
  (rows : list (list Value)) (bound : list Fieldvals) :
  Forall2 (bindsTo meta typ) rows bound ->
  bindRows meta typ rows = Ret (bound, None).
Proof.
  induction 1 as [|row fs rows bound Hrow _ IH]; cbn [bindRows]; [done|].
  unfold bindsTo in Hrow. by rewrite Hrow, IH.
Qed.

Lemma bindRows_error (meta : metadata) (typ : GoType)
  (rows more : list (list Value)) (bound : list Fieldvals)
  (row : list Value) (fs : Fieldvals) (e : error) :
  Forall2 (bindsTo meta typ) rows bound ->
  decodeFields row (Some meta) (newStruct typ) = Ret (fs, Some e) ->
  bindRows meta typ (rows ++ row :: more) = Ret (bound, Some e).
Proof.
  intros Hrows Hrow.
  induction Hrows as [|r f rows bound Hr _ IH]; cbn [bindRows app].
  - by rewrite Hrow.
  - unfold bindsTo in Hr. by rewrite Hr, IH.
Qed.

Lemma DecodeValueRange_slice (ptrElements : bool) (typ : GoType)
  (elem : nat) (first : ValueRange) (rest : list ValueRange) (st : State) :
  kind typ = Struct -> Values first <> [] ->
  DecodeValueRange DecodeField
    (Pointer (TSlice (if ptrElements then TPtr typ else typ)) (Some elem))
    (first :: rest) st
  = match getMetadata DecodeField typ st with
    | Ret (meta, st1) =>
        decodeRows ptrElements typ meta elem (allRows (first :: rest)) st1
    | Panic p => Panic p
    end.
Proof.
  intros K Hne. unfold DecodeValueRange.
  destruct (Values first) as [|row0 rows0] eqn:E; [done|].
  rewrite bool_decide_eq_true_2 by done.
  unfold mbind at 1, M_bind at 1, lift at 1.
  destruct ptrElements; cbn [Reflect.Elem kind].
  - rewrite bool_decide_eq_true_2 by done.
    unfold mbind at 1, M_bind at 1, lift at 1.
    rewrite bool_decide_eq_true_2 by done.
    unfold mbind, M_bind.
    destruct (getMetadata DecodeField typ st) as [[meta st1]|p]; [|done].
    apply decodeRanges_rows.
  - rewrite K. rewrite bool_decide_eq_false_2 by done.
    rewrite bool_decide_eq_false_2 by (intros N; by apply N).
    unfold mbind, M_bind.
    destruct (getMetadata DecodeField typ st) as [[meta st1]|p]; [|done].
    apply decodeRanges_rows.
Qed.

Lemma DecodeValueRange_struct (typ : GoType) (elem : nat)
  (first : ValueRange) (rest : list ValueRange) (row0 : list Value)
  (rows0 : list (list Value)) (st : State) :
  kind typ = Struct -> Values first = row0 :: rows0 ->
  DecodeValueRange DecodeField (Pointer typ (Some elem)) (first :: rest) st
  = match getMetadata DecodeField typ st with
    | Ret (meta, st1) => decodeValue row0 (Some meta) elem st1
    | Panic p => Panic p
    end.
Proof.
  intros K E. unfold DecodeValueRange. rewrite E, K.
  rewrite bool_decide_eq_false_2 by done.
  rewrite bool_decide_eq_false_2 by (intros N; by apply N).
  unfold mbind, M_bind.
  by destruct (getMetadata DecodeField typ st) as [[meta st1]|p].
Qed.

(** Only [getMetadata] writes the cache. *)
Lemma decodeValue_cache (row : list Value) (meta : option (Ref metadata))
  (ptr : nat) (st st' : State) (e : option error) :
  decodeValue row meta ptr st = Ret (e, st') ->
  cache st' = cache st /\ built st' = built st.
Proof.
  unfold decodeValue. destruct meta as [m|]; [|by intros [= <- <-]].
  destruct (bool_decide (length row = 0%nat)
            || bool_decide (length (headers (deref m)) = 0%nat));
    [by intros [= <- <-]|].
  unfold mbind, M_bind, loadStruct, lift, store, mret, M_ret.
  destruct (heap st !! ptr) as [[fs|es]|]; try done.
  destruct (decodeCells (deref m) 0 row fs) as [[fs' err]|p]; [|done].
  by intros [= <- <-].
Qed.

Lemma decodeRows_cache (ptrElements : bool) (typ : GoType)
  (meta : Ref metadata) (elem : nat) (rows : list (list Value))
  (st st' : State) (e : option error) :
  decodeRows ptrElements typ meta elem rows st = Ret (e, st') ->
  cache st' = cache st /\ built st' = built st.
Proof.
  revert st. induction rows as [|row rest IH]; intros st.
  - by intros [= <- <-].
  - cbn [decodeRows]. unfold mbind at 1, M_bind at 1, New at 1.
    cbn beta iota. unfold mbind at 1, M_bind at 1.
    match goal with
    | |- context [decodeValue ?r ?m ?a ?s] =>
        destruct (decodeValue r m a s) as [[[err|] st2]|p] eqn:Ev; try done
    end.
    + intros [= <- <-]. by apply decodeValue_cache in Ev.
    + apply decodeValue_cache in Ev as [Hc Hb]. simpl in Hc, Hb.
      unfold mbind, M_bind, loadStruct, loadSlice, store, mret, M_ret.
      destruct ptrElements; cbn beta iota delta [negb];
        repeat match goal with
          | |- context [heap st2 !! ?a] =>
              destruct (heap st2 !! a) as [[?|?]|]; try done
          end;
        intros Hrun; apply IH in Hrun as [Hc' Hb']; simpl in Hc', Hb';
        split; congruence.
Qed.

Lemma DecodeValueRange_cache (dest : Dest) (rangeValues : list ValueRange)
  (st st' : State) (e : option error) :
  DecodeValueRange DecodeField dest rangeValues st = Ret (e, st') ->
  (forall t m, cache st !! t = Some m -> cache st' !! t = Some m) /\
  (cache_ok DecodeField st -> cache_ok DecodeField st').
Proof.
  assert (Hsame : Ret (e, st) = Ret (e, st') ->
    (forall t m, cache st !! t = Some m -> cache st' !! t = Some m) /\
    (cache_ok DecodeField st -> cache_ok DecodeField st')).
  { by intros [= <-]. }
  assert (Hget : forall typ (k : Ref metadata -> M (option error)),
    (forall m s s' e', k m s = Ret (e', s') ->
                       cache s' = cache s /\ built s' = built s) ->
    (meta ← getMetadata DecodeField typ; k meta) st = Ret (e, st') ->
    (forall t m, cache st !! t = Some m -> cache st' !! t = Some m) /\
    (cache_ok DecodeField st -> cache_ok DecodeField st')).
  { intros typ k Hk. unfold mbind, M_bind.
    destruct (getMetadata DecodeField typ st) as [[meta st1]|p] eqn:Eg;
      [|done].
    intros Hrun. apply Hk in Hrun as [Hc _].
    apply getMetadata_returns in Eg as (_ & _ & Hkeep & Hok).
    unfold cache_ok in *. rewrite Hc. split; [done|]. intros H. by apply Hok. }
  unfold DecodeValueRange.
  destruct rangeValues as [|first rest]; [by intros [= <- <-]|].
  destruct (Values first) as [|row0 rows0]; [by intros [= <- <-]|].
  destruct dest as [|typ [elem|]]; [by intros [= <- <-]| |done].
  case_bool_decide.
  - unfold mbind at 1, M_bind at 1, lift at 1.
    destruct (Reflect.Elem typ) as [t1|p]; [|done].
    case_bool_decide.
    + unfold mbind at 1, M_bind at 1, lift at 1.
      destruct (Reflect.Elem t1) as [t2|p]; [|done].
      case_bool_decide; [|by intros [= <- <-]].
      apply Hget. intros m s s' e' Hrun.
      rewrite decodeRanges_rows in Hrun. by apply decodeRows_cache in Hrun.
    + case_bool_decide; [by intros [= <- <-]|].
      apply Hget. intros m s s' e' Hrun.
      rewrite decodeRanges_rows in Hrun. by apply decodeRows_cache in Hrun.
  - case_bool_decide; [by intros [= <- <-]|].
    apply Hget. intros m s s' e' Hrun. by apply decodeValue_cache in Hrun.
Qed.
End Bind.

Lemma imap_shift {A B} (f : nat -> A -> B) (i : nat) (l : list A) :
  imap ((fun j => f (i + j)%nat) ∘ S) l = imap (fun j => f (S i + j)%nat) l.
Proof.
  apply imap_ext. intros j x _. simpl. f_equal. lia.
Qed.

Lemma describe_sorted_from (fs : list StructField) (i : nat) :
  StronglySorted lt
    (FieldIndex <$> (descriptor <$> List.filter (fun p => bindable p.2)
                       (imap (fun j f => ((i + j)%nat, f)) fs))).
Proof.
  revert i. induction fs as [|f rest IH]; intros i; simpl; [constructor|].
  rewrite (imap_shift (fun k f => (k, f))).
  destruct (bindable f); simpl; [|exact (IH (S i))].
  constructor; [exact (IH (S i))|].
  destruct (filter_indices rest (S i)) as [_ Hall].
  eapply Forall_impl; [exact Hall|]. simpl. intros; lia.
Qed.

Lemma describe_sorted (typ : GoType) :
  StronglySorted lt (FieldIndex <$> describe typ).
Proof. apply (describe_sorted_from (Fields typ) 0). Qed.

Lemma describe_elem (typ : GoType) (h : Header) :
  h ∈ describe typ <->
  exists i f, Fields typ !! i = Some f /\ PkgPath f = "" /\ Tag f <> "-" /\
              h = mkHeader (if bool_decide (Tag f = "") then Reflect.Name f
                            else Tag f)
                           i (Reflect.Name f) (Typ f).
Proof.
  unfold describe. rewrite list_elem_of_fmap. split.
  - intros ([i f] & -> & Hin). apply list_elem_of_In, filter_In in Hin.
    destruct Hin as [Hin Hb]. apply list_elem_of_In in Hin.
    apply elem_of_lookup_imap in Hin as (j & g & [= -> ->] & Hj).
    unfold bindable in Hb. simpl in Hb.
    apply andb_true_iff in Hb as [H1 H2].
    apply bool_decide_eq_true in H1. apply negb_true_iff in H2.
    apply bool_decide_eq_false in H2. by exists j, g.
  - intros (i & f & Hf & Hp & Ht & ->). exists (i, f). split; [done|].
    apply list_elem_of_In, filter_In. split.
    + apply list_elem_of_In, elem_of_lookup_imap. by exists i, f.
    + unfold bindable. simpl. apply andb_true_iff. split.
      * by apply bool_decide_eq_true.
      * apply negb_true_iff. by apply bool_decide_eq_false.
Qed.

Lemma describe_untagged_from (fs : list StructField) (i : nat) :
  Forall (fun f => PkgPath f = "" /\ Tag f = "") fs ->
  descriptor <$> List.filter (fun p => bindable p.2)
                   (imap (fun j f => ((i + j)%nat, f)) fs)
  = imap (fun j f => mkHeader (Reflect.Name f) (i + j) (Reflect.Name f) (Typ f)) fs.
Proof.
  revert i. induction fs as [|f rest IH]; intros i Hall; [done|].
  apply Forall_cons in Hall as [[Hp Ht] Hall].
  rewrite !imap_cons.
  rewrite (imap_shift (fun k f => (k, f))).
  rewrite (imap_shift (fun k f => mkHeader (Reflect.Name f) k (Reflect.Name f) (Typ f))).
  cbn [List.filter snd]. unfold bindable at 1. rewrite Hp, Ht.
  rewrite bool_decide_eq_true_2 by done.
  rewrite bool_decide_eq_false_2 by done.
  cbn [andb negb]. rewrite fmap_cons.
  rewrite (IH (S i)) by done. f_equal.
  unfold descriptor, displayName. simpl. by rewrite Ht.
Qed.

(** C5: for every struct type, [getMetadata] returns one descriptor per
    exported field whose tag is not ["-"], in declaration order (the field
    indices increase strictly), each named by its tag when the tag is not
    empty and by the field's own name otherwise; for a type whose fields
    are all exported and untagged that is one descriptor per field, named
    by the field. *)
Theorem getMetadata_describes_fields
  (DecodeField : GoType -> option FieldDecoder) (typ : GoType) (st : State) :
  kind typ = Struct -> cache_ok DecodeField st ->
  exists m st',
    getMetadata DecodeField typ st = Ret (m, st') /\
    headers (deref m) = describe typ /\
    (forall h,
        h ∈ headers (deref m) <->
        exists i f, Fields typ !! i = Some f /\ PkgPath f = "" /\
                    Tag f <> "-" /\
                    h = mkHeader (if bool_decide (Tag f = "")
                                  then Reflect.Name f else Tag f)
                                 i (Reflect.Name f) (Typ f)) /\
    StronglySorted lt (FieldIndex <$> headers (deref m)) /\
    (Forall (fun f => PkgPath f = "" /\ Tag f = "") (Fields typ) ->
     headers (deref m)
     = imap (fun i f => mkHeader (Reflect.Name f) i (Reflect.Name f) (Typ f))
            (Fields typ)).
Proof.
  intros K Hok.
  destruct (getMetadata_total DecodeField typ st Hok K) as (a & st' & Hrun & _).
  exists (mkRef a (buildMetadata DecodeField typ)), st'.
  split; [done|]. cbn [deref]. rewrite buildMetadata_headers.
  split; [done|]. split; [apply describe_elem|].
  split; [apply describe_sorted|].
  intros Hall. apply (describe_untagged_from (Fields typ) 0 Hall).
Qed.

Lemma getMetadata_describes_fields_witness :
  exists m st',
    getMetadata noMethods testRow initial = Ret (m, st') /\
    headers (deref m)
    = [mkHeader "Name" 0 "Name" TString; mkHeader "Age" 2 "Age" TInt].
Proof.
  destruct (getMetadata_describes_fields noMethods testRow initial
              eq_refl (cache_ok_initial noMethods))
    as (m & st' & Hrun & Hh & _).
  exists m, st'. split; [exact Hrun|]. rewrite Hh. reflexivity.
Defined.

(** C7: for every destination, of the right shape or not, binding no
    matrix at all, or matrices the first of which has no row, returns no
    error and leaves the whole state, the destination included, as it
    was. *)
Theorem DecodeValueRange_no_rows_is_noop
  (DecodeField : GoType -> option FieldDecoder) (dest : Dest) (st : State) :
  DecodeValueRange DecodeField dest [] st = Ret (None, st) /\
  (forall range majorDimension rest,
      DecodeValueRange DecodeField dest
        (mkValueRange range majorDimension [] :: rest) st
      = Ret (None, st)).
Proof. split; reflexivity. Qed.

(** C8: a call of [getMetadata] that follows one for the same type
    returns the same metadata instance and changes nothing (nothing is
    built); no call of [getMetadata] or [DecodeValueRange], for this or
    another type, changes or removes an entry of the cache. *)
Theorem getMetadata_cached_instance
  (DecodeField : GoType -> option FieldDecoder) (typ : GoType)
  (st st1 : State) (m : Ref metadata) :
  getMetadata DecodeField typ st = Ret (m, st1) ->
  getMetadata DecodeField typ st1 = Ret (m, st1) /\
  (forall t m0, cache st !! t = Some m0 -> cache st1 !! t = Some m0) /\
  (forall t st2 m2,
      getMetadata DecodeField t st1 = Ret (m2, st2) ->
      getMetadata DecodeField typ st2 = Ret (m, st2)) /\
  (forall dest rangeValues e st2,
      DecodeValueRange DecodeField dest rangeValues st1 = Ret (e, st2) ->
      getMetadata DecodeField typ st2 = Ret (m, st2)).
Proof.
  intros Hrun.
  destruct (getMetadata_returns DecodeField _ _ _ _ Hrun) as (Hm & _ & Hk & _).
  split; [by apply getMetadata_hit|]. split; [done|]. split.
  - intros t st2 m2 H2. apply getMetadata_hit.
    by apply (getMetadata_returns DecodeField _ _ _ _ H2).
  - intros dest rvs e st2 H2. apply getMetadata_hit.
    by apply (DecodeValueRange_cache DecodeField _ _ _ _ _ H2).
Qed.

Lemma getMetadata_cached_instance_witness :
  getMetadata noMethods testRow initial
  = Ret (mkRef 0 (buildMetadata noMethods testRow),
         mkState [] {[ testRow := mkRef 0 (buildMetadata noMethods testRow) ]} 1)
  /\
  getMetadata noMethods testRow
    (mkState [] {[ testRow := mkRef 0 (buildMetadata noMethods testRow) ]} 1)
  = Ret (mkRef 0 (buildMetadata noMethods testRow),
         mkState [] {[ testRow := mkRef 0 (buildMetadata noMethods testRow) ]} 1).
Proof.
  assert (H : getMetadata noMethods testRow initial
    = Ret (mkRef 0 (buildMetadata noMethods testRow),
         mkState [] {[ testRow := mkRef 0 (buildMetadata noMethods testRow) ]} 1)).
  { reflexivity. }
  split; [exact H|].
  exact (proj1 (getMetadata_cached_instance noMethods testRow _ _ _ H)).
Defined.

Lemma decodeFields_cells (meta : metadata) (row : list Value) (fs : Fieldvals) :
  (length row <= length (headers meta))%nat ->
  decodeFields row (Some meta) fs = decodeCells meta 0 row fs.
Proof.
  intros Hlen. unfold decodeFields.
  destruct row as [|v row]; [done|].
  destruct (headers meta) as [|h hs] eqn:E; [simpl in Hlen; lia|].
  simpl. by rewrite E.
Qed.

Lemma decodeFields_guard (meta : metadata) (row : list Value) (fs : Fieldvals) :
  row = [] \/ headers meta = [] ->
  decodeFields row (Some meta) fs = Ret (fs, None).
Proof.
  intros [-> | E]; unfold decodeFields; [done|]. rewrite E. simpl.
  by rewrite orb_true_r.
Qed.

Lemma decodeFields_nonempty (meta : metadata) (row : list Value) (fs : Fieldvals) :
  row <> [] -> headers meta <> [] ->
  decodeFields row (Some meta) fs = decodeCells meta 0 row fs.
Proof.
  intros Hr Hh. unfold decodeFields.
  destruct row as [|v row]; [done|].
  destruct (headers meta) as [|h hs]; done.
Qed.

(** C4: without a custom decoder, binding a row of typed cells that is
    not longer than the descriptor list returns no error; the field of
    the i-th descriptor holds the i-th cell, stored as [Value.Set] stores
    it, exactly when the cell's type is assignable to the field's type as
    [Type.AssignableTo] has it, and keeps its prior value otherwise, and
    every other field is untouched. Binding [["makis", 27]] to a slice of
    (Name string, Age int) appends the one record {makis, 27}. *)
Theorem default_assignment_by_assignability
  (DecodeField : GoType -> option FieldDecoder) (typ : GoType)
  (row : list Value) (fs : Fieldvals) :
  DecodeField typ = None ->
  Forall typed row ->
  (length row <= length (describe typ))%nat ->
  length fs = length (Fields typ) ->
  exists fs',
    decodeFields row (Some (buildMetadata DecodeField typ)) fs
    = Ret (fs', None) /\
    length fs' = length fs /\
    (forall i h v vt,
        describe typ !! i = Some h -> row !! i = Some v ->
        typeOf v = Some vt ->
        fs' !! FieldIndex h =
        if AssignableTo vt (FieldType h) then Some (assignTo (FieldType h) v)
        else fs !! FieldIndex h) /\
    (forall j, j ∉ FieldIndex <$> take (length row) (describe typ) ->
               fs' !! j = fs !! j) /\
    DecodeValueRange noMethods (Pointer (TSlice person) (Some 0%nat)) [makis]
      emptySlice
    = Ret (None,
           mkState [OSlice [ElemVal [VString "makis"; VInt 27]];
                    OStruct [VString "makis"; VInt 27]]
                   {[ person := mkRef 0 (buildMetadata noMethods person) ]} 1).
Proof.
  intros Hno Hty Hlen Hfs.
  destruct (describe_indices typ) as [Hnd Hidx].
  pose proof (buildMetadata_headers DecodeField typ) as Hh.
  exists (assignAll (describe typ) row fs).
  split; [|split; [apply assignAll_length|split; [|split]]].
  - rewrite decodeFields_cells by (by rewrite Hh).
    rewrite decodeCells_default; rewrite ?Hh; try done.
    by rewrite Hfs.
  - intros i h v vt Hi Hv Ht. apply (assignAll_at _ _ _ i); try done.
    rewrite Forall_forall in Hidx. rewrite Hfs. apply Hidx.
    eapply list_elem_of_lookup_2, Hi.
  - apply assignAll_other.
  - reflexivity.
Qed.

Lemma default_assignment_by_assignability_witness :
  (exists fs',
      decodeFields [VString "makis"; float27]
        (Some (buildMetadata noMethods testRow)) (newStruct testRow)
      = Ret (fs', None) /\
      fs' !! 0%nat = Some (VString "makis") /\
      fs' !! 1%nat = Some (VString "") /\
      fs' !! 2%nat = Some (VInt 0)) /\
  (exists fs',
      decodeFields [VOpaque unnamed 7; VInt 3]
        (Some (buildMetadata noMethods holder)) (newStruct holder)
      = Ret (fs', None) /\
      fs' !! 0%nat = Some (VOpaque inner 7) /\
      fs' !! 1%nat = Some (VInt 3)).
Proof.
  split.
  - destruct (default_assignment_by_assignability noMethods testRow
                [VString "makis"; float27] (newStruct testRow))
      as (fs' & Hrun & _ & Hat & Hother & _).
    + reflexivity.
    + repeat constructor; discriminate.
    + simpl. lia.
    + reflexivity.
    + exists fs'. split; [exact Hrun|]. split; [|split].
      * exact (Hat 0%nat _ _ _ eq_refl eq_refl eq_refl).
      * apply (Hother 1%nat). vm_compute. intros H.
        repeat (apply elem_of_cons in H as [H|H]; [discriminate|]).
        by apply elem_of_nil in H.
      * exact (Hat 1%nat _ _ _ eq_refl eq_refl eq_refl).
  - destruct (default_assignment_by_assignability noMethods holder
                [VOpaque unnamed 7; VInt 3] (newStruct holder))
      as (fs' & Hrun & _ & Hat & _).
    + reflexivity.
    + repeat constructor; discriminate.
    + simpl. lia.
    + reflexivity.
    + exists fs'. split; [exact Hrun|]. split.
      * exact (Hat 0%nat _ _ _ eq_refl eq_refl eq_refl).
      * exact (Hat 1%nat _ _ _ eq_refl eq_refl eq_refl).
Defined.





Lemma appended_lookup (ptrElements : bool) (base : nat)
  (bound : list Fieldvals) (k : nat) (fs : Fieldvals) :
  bound !! k = Some fs ->
  appended ptrElements base bound !! k
  = Some (if ptrElements then ElemPtr (base + k) else ElemVal fs).
Proof. intros H. unfold appended. by rewrite list_lookup_imap, H. Qed.

Lemma appended_length (ptrElements : bool) (base : nat)
  (bound : list Fieldvals) :
  length (appended ptrElements base bound) = length bound.
Proof. apply length_imap. Qed.

(** What [DecodeValueRange] does to a slice, in terms of [bindRows]. *)
Lemma DecodeValueRange_slice_spec
  (DecodeField : GoType -> option FieldDecoder) (ptrElements : bool)
  (typ : GoType) (elem : nat) (es : list Elem) (st : State)
  (first : ValueRange) (rest : list ValueRange)
  (bound : list Fieldvals) (err : option error) :
  kind typ = Struct -> cache_ok DecodeField st ->
  heap st !! elem = Some (OSlice es) -> Values first <> [] ->
  bindRows (buildMetadata DecodeField typ) typ (allRows (first :: rest))
  = Ret (bound, err) ->
  exists st',
    DecodeValueRange DecodeField
      (Pointer (TSlice (if ptrElements then TPtr typ else typ)) (Some elem))
      (first :: rest) st = Ret (err, st') /\
    heap st' !! elem
    = Some (OSlice (es ++ appended ptrElements (length (heap st)) bound)) /\
    (forall k fs, bound !! k = Some fs ->
                  heap st' !! (length (heap st) + k)%nat = Some (OStruct fs)) /\
    (forall a, (a < length (heap st))%nat -> a <> elem ->
               heap st' !! a = heap st !! a).
Proof.
  intros K Hok He Hne Hbind.
  rewrite DecodeValueRange_slice by done.
  destruct (getMetadata_total DecodeField typ st Hok K)
    as (a & st1 & -> & Hheap & _).
  rewrite <- Hheap in He.
  pose proof (decodeRows_spec ptrElements typ
                (mkRef a (buildMetadata DecodeField typ)) elem
                (allRows (first :: rest)) st1 es He) as Hspec.
  cbn [deref] in Hspec. rewrite Hbind in Hspec.
  destruct Hspec as (st' & Hrun & _ & _ & Hs & _ & Hold & Hnew).
  rewrite Hheap in *. by exists st'.
Qed.

(** C1, amended: for a pointer to a slice of structs or of pointers to
    structs, binding matrices whose first has at least one row, and all
    of whose N rows bind without error, returns no error and appends
    exactly N elements, in encounter order, after the elements there
    were; for pointer elements the k-th is the address of a struct
    allocated by this call, beyond the old heap, which holds the k-th
    bound record; otherwise it is that record by value. *)
Theorem DecodeValueRange_appends_all_rows
  (DecodeField : GoType -> option FieldDecoder) (ptrElements : bool)
  (typ : GoType) (elem : nat) (es : list Elem) (st : State)
  (first : ValueRange) (rest : list ValueRange) (bound : list Fieldvals) :
  kind typ = Struct -> cache_ok DecodeField st ->
  heap st !! elem = Some (OSlice es) ->
  Values first <> [] ->
  Forall2 (bindsTo (buildMetadata DecodeField typ) typ)
          (allRows (first :: rest)) bound ->
  exists st',
    DecodeValueRange DecodeField
      (Pointer (TSlice (if ptrElements then TPtr typ else typ)) (Some elem))
      (first :: rest) st = Ret (None, st') /\
    heap st' !! elem
    = Some (OSlice (es ++ appended ptrElements (length (heap st)) bound)) /\
    length (appended ptrElements (length (heap st)) bound)
    = length (allRows (first :: rest)) /\
    (forall k fs,
        bound !! k = Some fs ->
        appended ptrElements (length (heap st)) bound !! k
        = Some (if ptrElements then ElemPtr (length (heap st) + k)
                else ElemVal fs) /\
        heap st' !! (length (heap st) + k)%nat = Some (OStruct fs)) /\
    (forall a, (a < length (heap st))%nat -> a <> elem ->
               heap st' !! a = heap st !! a).
Proof.
  intros K Hok He Hne Hall.
  destruct (DecodeValueRange_slice_spec DecodeField ptrElements typ elem es
              st first rest bound None K Hok He Hne (bindRows_all _ _ _ _ Hall))
    as (st' & Hrun & Hs & Hnew & Hold).
  exists st'. split; [done|]. split; [done|].
  split; [rewrite appended_length; symmetry; by eapply Forall2_length|].
  split; [|done].
  intros k fs Hk. split; [by apply appended_lookup|by apply Hnew].
Qed.

Lemma DecodeValueRange_appends_all_rows_witness :
  exists st',
    DecodeValueRange noMethods (Pointer (TSlice (TPtr testRow)) (Some 0%nat))
      [makis; mkValueRange "" "" [[VString "b"]]] emptySlice = Ret (None, st') /\
    heap st' !! 0%nat = Some (OSlice [ElemPtr 1; ElemPtr 2]) /\
    heap st' !! 1%nat = Some (OStruct [VString "makis"; VString ""; VInt 27]) /\
    heap st' !! 2%nat = Some (OStruct [VString "b"; VString ""; VInt 0]).
Proof.
  destruct (DecodeValueRange_appends_all_rows noMethods true testRow 0 []
              emptySlice makis [mkValueRange "" "" [[VString "b"]]]
              [[VString "makis"; VString ""; VInt 27];
               [VString "b"; VString ""; VInt 0]])
    as (st' & Hrun & Hs & _ & Hk & _).
  - reflexivity.
  - intros t m H. simpl in H. rewrite lookup_empty in H. discriminate.
  - reflexivity.
  - discriminate.
  - repeat constructor.
  - exists st'. split; [exact Hrun|]. split; [exact Hs|]. split.
    + exact (proj2 (Hk 0%nat _ eq_refl)).
    + exact (proj2 (Hk 1%nat _ eq_refl)).
Defined.

(** C1 as stated fails: the matrices hold one row in total, the first
    matrix is empty, and nothing is appended. *)
Lemma DecodeValueRange_empty_first_matrix_skips_rows :
  length (allRows [empty; makis]) = 1%nat /\
  DecodeValueRange noMethods (Pointer (TSlice testRow) (Some 0%nat))
    [empty; makis] emptySlice = Ret (None, emptySlice) /\
  DecodeValueRange noMethods (Pointer (TSlice (TPtr testRow)) (Some 0%nat))
    [empty; makis] emptySlice = Ret (None, emptySlice).
Proof. repeat split. Qed.

Lemma assignField_at (h : Header) (v : Value) (fs r : Fieldvals) (vt : GoType) :
  typeOf v = Some vt -> AssignableTo vt (FieldType h) = true ->
  assignField h v fs = Ret r ->
  r !! FieldIndex h = Some (assignTo (FieldType h) v).
Proof.
  intros Ht Ha. unfold assignField. rewrite Ht, Ha.
  case_bool_decide; [|done]. intros [= <-]. by apply list_lookup_insert_eq.
Qed.

Lemma assignField_skip (h : Header) (v : Value) (fs r : Fieldvals) :
  (forall vt, typeOf v = Some vt -> AssignableTo vt (FieldType h) = false) ->
  assignField h v fs = Ret r -> r = fs.
Proof.
  intros Hn. unfold assignField. destruct (typeOf v) as [vt|]; [|done].
  rewrite (Hn vt eq_refl). by intros [= <-].
Qed.

Lemma decodeCell_withoutDecoder (meta : metadata) (h : Header) (v : Value)
  (fs : Fieldvals) :
  decodeCell (withoutDecoder meta) h v fs =
  match assignField h v fs with
  | Ret fs2 => Ret (fs2, None)
  | Panic p => Panic p
  end.
Proof. reflexivity. Qed.

(** C3, amended: for a non-nil cell of a type with a custom decoder,
    the decoder is called with the struct, the header and the cell.
    If it returns [ErrOK] the default assignment is applied to the struct
    as the decoder left it, so the field equals what binding without a
    decoder gives whenever the cell is assignable to the field or the
    decoder did not change the field. If it returns nil the default
    assignment is skipped. If it returns another error, the loop, the
    row and the whole [DecodeValueRange] return that very error, the rows
    bound before staying appended. *)
Theorem decodeCell_hook_outcomes (meta : metadata) (decode : FieldDecoder)
  (h : Header) (v : Value) (fs fs1 : Fieldvals) (out : option error) :
  decodeFieldFunc meta = Some decode ->
  v <> VNil ->
  decode fs h v = (fs1, out) ->
  (out = Some ErrOK ->
   decodeCell meta h v fs = decodeCell (withoutDecoder meta) h v fs1 /\
   (forall r r',
       decodeCell meta h v fs = Ret (r, None) ->
       decodeCell (withoutDecoder meta) h v fs = Ret (r', None) ->
       (exists vt, typeOf v = Some vt /\ AssignableTo vt (FieldType h) = true)
       \/ fs1 !! FieldIndex h = fs !! FieldIndex h ->
       r !! FieldIndex h = r' !! FieldIndex h)) /\
  (out = None -> decodeCell meta h v fs = Ret (fs1, None)) /\
  (forall e,
      out = Some e -> e <> ErrOK ->
      decodeCell meta h v fs = Ret (fs1, Some e) /\
      (forall i rest,
          headers meta !! i = Some h ->
          decodeCells meta i (v :: rest) fs = Ret (fs1, Some e)) /\
      (forall (m : Ref metadata) row fs0 fs' ptr st,
          deref m = meta -> heap st !! ptr = Some (OStruct fs0) ->
          decodeFields row (Some meta) fs0 = Ret (fs', Some e) ->
          exists st', decodeValue row (Some m) ptr st = Ret (Some e, st')) /\
      (forall (DecodeField : GoType -> option FieldDecoder) (typ : GoType)
              (elem : nat) (fs0 fs' : Fieldvals) (st : State)
              (first : ValueRange) (rest : list ValueRange)
              (row0 : list Value) (rows0 : list (list Value)),
          meta = buildMetadata DecodeField typ ->
          kind typ = Struct -> cache_ok DecodeField st ->
          heap st !! elem = Some (OStruct fs0) ->
          Values first = row0 :: rows0 ->
          decodeFields row0 (Some meta) fs0 = Ret (fs', Some e) ->
          exists st',
            DecodeValueRange DecodeField (Pointer typ (Some elem))
              (first :: rest) st = Ret (Some e, st')) /\
      (forall (DecodeField : GoType -> option FieldDecoder)
              (ptrElements : bool) (typ : GoType) (elem : nat)
              (es : list Elem) (st : State) (first : ValueRange)
              (rest : list ValueRange) (rows : list (list Value))
              (row : list Value) (more : list (list Value))
              (bound : list Fieldvals) (fs' : Fieldvals),
          meta = buildMetadata DecodeField typ ->
          kind typ = Struct -> cache_ok DecodeField st ->
          heap st !! elem = Some (OSlice es) -> Values first <> [] ->
          allRows (first :: rest) = rows ++ row :: more ->
          Forall2 (bindsTo meta typ) rows bound ->
          decodeFields row (Some meta) (newStruct typ) = Ret (fs', Some e) ->
          exists st',
            DecodeValueRange DecodeField
              (Pointer (TSlice (if ptrElements then TPtr typ else typ))
                       (Some elem))
              (first :: rest) st = Ret (Some e, st') /\
            heap st' !! elem
            = Some (OSlice (es ++ appended ptrElements (length (heap st)) bound)))).
Proof.
  intros Hdec Hv Hout.
  assert (Hcell : decodeCell meta h v fs =
    match out with
    | Some err =>
        if bool_decide (err ≠ ErrOK) then Ret (fs1, Some err)
        else match assignField h v fs1 with
             | Ret fs2 => Ret (fs2, None)
             | Panic p => Panic p
             end
    | None => Ret (fs1, None)
    end).
  { unfold decodeCell. rewrite Hdec. destruct v; try done; by rewrite Hout. }
  split; [|split].
  - intros ->. rewrite bool_decide_eq_false_2 in Hcell by (intros N; by apply N).
    rewrite Hcell, !decodeCell_withoutDecoder.
    split; [done|]. intros r r' Hr Hr' Hcond.
    destruct (assignField h v fs1) as [r1|] eqn:E1; [|done].
    destruct (assignField h v fs) as [r2|] eqn:E2; [|done].
    injection Hr as ->. injection Hr' as ->.
    destruct Hcond as [(vt & Ht & Ha)|Hsame].
    + by rewrite (assignField_at _ _ _ _ _ Ht Ha E1),
                 (assignField_at _ _ _ _ _ Ht Ha E2).
    + destruct (typeOf v) as [vt|] eqn:Ht.
      * destruct (AssignableTo vt (FieldType h)) eqn:Ha.
        -- by rewrite (assignField_at _ _ _ _ _ Ht Ha E1),
                      (assignField_at _ _ _ _ _ Ht Ha E2).
        -- assert (Hn : forall vt0, typeOf v = Some vt0 ->
                                     AssignableTo vt0 (FieldType h) = false)
             by (intros vt0 H0; congruence).
           rewrite (assignField_skip _ _ _ _ Hn E1).
           by rewrite (assignField_skip _ _ _ _ Hn E2).
      * unfold assignField in E1. by rewrite Ht in E1.
  - intros ->. by rewrite Hcell.
  - intros e -> Hne.
    assert (Hc : decodeCell meta h v fs = Ret (fs1, Some e)).
    { rewrite Hcell. by rewrite bool_decide_eq_true_2. }
    split; [done|]. split; [|split; [|split]].
    + intros i rest Hi. cbn [decodeCells]. by rewrite Hi, Hc.
    + intros m row fs0 fs' ptr st <- Hptr Hrow. eexists.
      rewrite (decodeValue_spec _ _ _ _ fs0 Hptr).
      cbn [fmap option_fmap option_map]. by rewrite Hrow.
    + intros DecodeField typ elem fs0 fs' st first rest row0 rows0
             -> K Hok He Hfirst Hrow.
      rewrite (DecodeValueRange_struct DecodeField typ elem first rest
                 row0 rows0 st K Hfirst).
      destruct (getMetadata_total DecodeField typ st Hok K)
        as (a & st1 & -> & Hheap & _).
      rewrite <- Hheap in He. eexists.
      rewrite (decodeValue_spec _ _ _ _ fs0 He).
      cbn [fmap option_fmap option_map deref]. by rewrite Hrow.
    + intros DecodeField ptrElements typ elem es st first rest rows row more
             bound fs' -> K Hok He Hfirst Hsplit Hrows Hrow.
      destruct (DecodeValueRange_slice_spec DecodeField ptrElements typ elem
                  es st first rest bound (Some e) K Hok He Hfirst)
        as (st' & Hrun & Hs & _).
      * rewrite Hsplit. by eapply bindRows_error.
      * by exists st'.
Qed.

Lemma ErrOK_hook_result_differs_from_no_hook :
  fallbackThenDefault (newStruct testRowFieldDecoder)
    (mkHeader "Name" 0 "Name" TString) (VInt 5)
  = ([VString "fallback"], Some ErrOK) /\
  decodeFields [VInt 5]
    (Some (buildMetadata (methods fallbackThenDefault) testRowFieldDecoder))
    (newStruct testRowFieldDecoder)
  = Ret ([VString "fallback"], None) /\
  decodeFields [VInt 5]
    (Some (buildMetadata noMethods testRowFieldDecoder))
    (newStruct testRowFieldDecoder)
  = Ret ([VString ""], None).
Proof. repeat split. Qed.

Lemma decodeCell_hook_outcomes_witness :
  decodeCell (buildMetadata (methods rejectAll) testRowFieldDecoder)
    (mkHeader "Name" 0 "Name" TString) (VString "makis")
    (newStruct testRowFieldDecoder)
  = Ret (newStruct testRowFieldDecoder, Some (Errorf "rejected")).
Proof.
  apply (proj2 (proj2 (decodeCell_hook_outcomes
           (buildMetadata (methods rejectAll) testRowFieldDecoder) rejectAll
           (mkHeader "Name" 0 "Name" TString) (VString "makis")
           (newStruct testRowFieldDecoder) (newStruct testRowFieldDecoder)
           (Some (Errorf "rejected")) eq_refl ltac:(discriminate) eq_refl))
         (Errorf "rejected") eq_refl ltac:(discriminate)).
Defined.

(** TestFieldDecoder of values_test.go, for value and for pointer
    elements. *)
Lemma TestFieldDecoder_names :
  let names := mkValueRange "" ""
                 [[VString "makis"]; [VString "giwrgos"]; [VString "efi"]] in
  (exists st',
      DecodeValueRange (methods customValue)
        (Pointer (TSlice testRowFieldDecoder) (Some 0%nat)) [names] emptySlice
      = Ret (None, st') /\
      heap st' !! 0%nat
      = Some (OSlice [ElemVal [VString "makis custom value"];
                      ElemVal [VString "giwrgos custom value"];
                      ElemVal [VString "efi custom value"]])) /\
  (exists st',
      DecodeValueRange (methods customValue)
        (Pointer (TSlice (TPtr testRowFieldDecoder)) (Some 0%nat)) [names]
        emptySlice
      = Ret (None, st') /\
      heap st' = [OSlice [ElemPtr 1; ElemPtr 2; ElemPtr 3];
                  OStruct [VString "makis custom value"];
                  OStruct [VString "giwrgos custom value"];
                  OStruct [VString "efi custom value"]]).
Proof. split; eexists; split; reflexivity. Qed.

(** When there is a row to bind, a destination of the wrong shape is
    answered by an error that names the shape, with the state untouched
    (no metadata is built, the pointer is not followed); a nil pointer
    makes [elem.Type()] panic. *)
Theorem DecodeValueRange_shape_errors
  (DecodeField : GoType -> option FieldDecoder) (first : ValueRange)
  (rest : list ValueRange) (st : State) :
  Values first <> [] ->
  DecodeValueRange DecodeField NotPointer (first :: rest) st
  = Ret (Some (Errorf "not a pointer"), st) /\
  (forall t, DecodeValueRange DecodeField (Pointer t None) (first :: rest) st
             = Panic ZeroValue) /\
  (forall t a, kind t <> Slice -> kind t <> Struct ->
               DecodeValueRange DecodeField (Pointer t (Some a)) (first :: rest) st
               = Ret (Some (Errorf "not a pointer to a struct"), st)) /\
  (forall t a, kind t <> Ptr -> kind t <> Struct ->
               DecodeValueRange DecodeField (Pointer (TSlice t) (Some a))
                 (first :: rest) st
               = Ret (Some (Errorf "not a pointer to a slice of structs"), st)) /\
  (forall t a, kind t <> Struct ->
               DecodeValueRange DecodeField (Pointer (TSlice (TPtr t)) (Some a))
                 (first :: rest) st
               = Ret (Some (Errorf
                   "not a pointer to a slice of pointers of structs"), st)).
Proof.
  intros Hne. unfold DecodeValueRange.
  destruct (Values first) as [|row0 rows0]; [done|].
  split; [done|]. split; [done|]. split; [|split].
  - intros t a H1 H2. rewrite bool_decide_eq_false_2 by done.
    by rewrite bool_decide_eq_true_2.
  - intros t a H1 H2. rewrite bool_decide_eq_true_2 by done.
    unfold mbind, M_bind, lift. cbn [Reflect.Elem].
    rewrite bool_decide_eq_false_2 by done.
    by rewrite bool_decide_eq_true_2.
  - intros t a H1. rewrite bool_decide_eq_true_2 by done.
    unfold mbind, M_bind, lift. cbn [Reflect.Elem].
    rewrite bool_decide_eq_true_2 by done. cbn [Reflect.Elem].
    by rewrite bool_decide_eq_false_2.
Qed.

Lemma DecodeValueRange_shape_errors_witness :
  DecodeValueRange noMethods (Pointer (TSlice TString) (Some 0%nat)) [makis]
    emptySlice
  = Ret (Some (Errorf "not a pointer to a slice of structs"), emptySlice).
Proof.
  apply (proj1 (proj2 (proj2 (proj2 (DecodeValueRange_shape_errors noMethods
           makis [] emptySlice ltac:(discriminate)))))); discriminate.
Defined.

(** For a pointer to a struct only the first row of the first matrix is
    bound: the other rows and matrices do not change the outcome. *)
Theorem DecodeValueRange_struct_first_row_only
  (DecodeField : GoType -> option FieldDecoder) (typ : GoType) (elem : nat)
  (first : ValueRange) (rest : list ValueRange) (row0 : list Value)
  (rows0 : list (list Value)) (st : State) :
  kind typ = Struct -> Values first = row0 :: rows0 ->
  DecodeValueRange DecodeField (Pointer typ (Some elem)) (first :: rest) st
  = DecodeValueRange DecodeField (Pointer typ (Some elem))
      [mkValueRange "" "" [row0]] st.
Proof.
  intros K E.
  rewrite (DecodeValueRange_struct DecodeField typ elem first rest row0 rows0 st K E).
  by rewrite (DecodeValueRange_struct DecodeField typ elem
                (mkValueRange "" "" [row0]) [] row0 [] st K eq_refl).
Qed.

Lemma DecodeValueRange_struct_first_row_only_witness :
  DecodeValueRange noMethods (Pointer testRow (Some 0%nat))
    [mkValueRange "" "" [[VString "makis"; VInt 27]; [VString "b"; VInt 1]];
     makis]
    (mkState [OStruct (newStruct testRow)] ∅ 0)
  = DecodeValueRange noMethods (Pointer testRow (Some 0%nat))
      [mkValueRange "" "" [[VString "makis"; VInt 27]]]
      (mkState [OStruct (newStruct testRow)] ∅ 0).
Proof.
  apply (DecodeValueRange_struct_first_row_only noMethods testRow 0
           (mkValueRange "" "" [[VString "makis"; VInt 27]; [VString "b"; VInt 1]])
           [makis] [VString "makis"; VInt 27] [[VString "b"; VInt 1]]);
    reflexivity.
Defined.

(** A pointer to a struct is bound in place: without a custom decoder the
    fields of the descriptors that face an assignable cell take the cell,
    stored as [Value.Set] stores it, and every other field keeps the value
    it had before the call. *)
Theorem DecodeValueRange_struct_in_place
  (DecodeField : GoType -> option FieldDecoder) (typ : GoType) (elem : nat)
  (first : ValueRange) (rest : list ValueRange) (row0 : list Value)
  (rows0 : list (list Value)) (st : State) (fs0 : Fieldvals) :
  kind typ = Struct -> cache_ok DecodeField st -> DecodeField typ = None ->
  heap st !! elem = Some (OStruct fs0) -> length fs0 = length (Fields typ) ->
  Values first = row0 :: rows0 ->
  Forall typed row0 -> (length row0 <= length (describe typ))%nat ->
  exists st' fs',
    DecodeValueRange DecodeField (Pointer typ (Some elem)) (first :: rest) st
    = Ret (None, st') /\
    heap st' = <[elem := OStruct fs']> (heap st) /\
    length fs' = length fs0 /\
    (forall i h v vt,
        describe typ !! i = Some h -> row0 !! i = Some v ->
        typeOf v = Some vt ->
        fs' !! FieldIndex h =
        if AssignableTo vt (FieldType h) then Some (assignTo (FieldType h) v)
        else fs0 !! FieldIndex h) /\
    (forall j, j ∉ FieldIndex <$> take (length row0) (describe typ) ->
               fs' !! j = fs0 !! j).
Proof.
  intros K Hok Hno He Hlen E Hty Hrow.
  rewrite (DecodeValueRange_struct DecodeField typ elem first rest row0 rows0 st K E).
  destruct (getMetadata_total DecodeField typ st Hok K)
    as (a & st1 & -> & Hheap & _).
  rewrite <- Hheap in He. rewrite (decodeValue_spec _ _ _ _ fs0 He).
  cbn [fmap option_fmap option_map deref].
  pose proof (buildMetadata_headers DecodeField typ) as Hh.
  destruct (describe_indices typ) as [Hnd Hidx].
  rewrite decodeFields_cells by (by rewrite Hh).
  rewrite decodeCells_default; rewrite ?Hh; try done.
  2:{ by rewrite Hlen. }
  cbn [drop]. eexists _, (assignAll (describe typ) row0 fs0).
  split; [reflexivity|]. cbn [heap]. rewrite Hheap.
  split; [done|]. split; [apply assignAll_length|]. split.
  - intros i h v vt Hi Hv Ht. apply (assignAll_at _ _ _ i); try done.
    rewrite Forall_forall in Hidx. rewrite Hlen. apply Hidx.
    eapply list_elem_of_lookup_2, Hi.
  - apply assignAll_other.
Qed.

Lemma DecodeValueRange_struct_in_place_witness :
  (exists st' fs',
      DecodeValueRange noMethods (Pointer testRow (Some 0%nat))
        [mkValueRange "" "" [[VString "makis"]]]
        (mkState [OStruct [VString "old"; VString "kept"; VInt 5]] ∅ 0)
      = Ret (None, st') /\
      heap st' = [OStruct fs'] /\
      fs' !! 0%nat = Some (VString "makis") /\
      fs' !! 1%nat = Some (VString "kept") /\
      fs' !! 2%nat = Some (VInt 5)) /\
  (exists st' fs',
      DecodeValueRange noMethods (Pointer holder (Some 0%nat))
        [mkValueRange "" "" [[VOpaque unnamed 7]]]
        (mkState [OStruct [VOpaque inner 1; VString "kept"]] ∅ 0)
      = Ret (None, st') /\
      heap st' = [OStruct fs'] /\
      fs' !! 0%nat = Some (VOpaque inner 7) /\
      fs' !! 1%nat = Some (VString "kept")).
Proof.
  split.
  - destruct (DecodeValueRange_struct_in_place noMethods testRow 0
                (mkValueRange "" "" [[VString "makis"]]) [] [VString "makis"] []
                (mkState [OStruct [VString "old"; VString "kept"; VInt 5]] ∅ 0)
                [VString "old"; VString "kept"; VInt 5])
      as (st' & fs' & Hrun & Hh & _ & Hat & Hother).
    + reflexivity.
    + intros t m H. simpl in H. rewrite lookup_empty in H. discriminate.
    + reflexivity.
    + reflexivity.
    + reflexivity.
    + reflexivity.
    + repeat constructor; discriminate.
    + simpl. lia.
    + exists st', fs'. split; [exact Hrun|]. split; [exact Hh|].
      split; [exact (Hat 0%nat _ _ _ eq_refl eq_refl eq_refl)|].
      split; apply Hother; vm_compute; intros H;
        repeat (apply elem_of_cons in H as [H|H]; [discriminate|]);
        by apply elem_of_nil in H.
  - destruct (DecodeValueRange_struct_in_place noMethods holder 0
                (mkValueRange "" "" [[VOpaque unnamed 7]]) []
                [VOpaque unnamed 7] []
                (mkState [OStruct [VOpaque inner 1; VString "kept"]] ∅ 0)
                [VOpaque inner 1; VString "kept"])
      as (st' & fs' & Hrun & Hh & _ & Hat & Hother).
    + reflexivity.
    + intros t m H. simpl in H. rewrite lookup_empty in H. discriminate.
    + reflexivity.
    + reflexivity.
    + reflexivity.
    + reflexivity.
    + repeat constructor; discriminate.
    + simpl. lia.
    + exists st', fs'. split; [exact Hrun|]. split; [exact Hh|].
      split; [exact (Hat 0%nat _ _ _ eq_refl eq_refl eq_refl)|].
      apply Hother; vm_compute; intros H;
        repeat (apply elem_of_cons in H as [H|H]; [discriminate|]);
        by apply elem_of_nil in H.
Defined.

Lemma decodeCells_default_cases (meta : metadata) (row : list Value) (i : nat)
  (fs : Fieldvals) :
  decodeFieldFunc meta = None ->
  (i <= length (headers meta))%nat ->
  Forall (fun h => FieldIndex h < length fs)%nat (headers meta) ->
  ((i + length row <= length (headers meta))%nat /\ Forall typed row /\
   decodeCells meta i row fs
   = Ret (assignAll (drop i (headers meta)) row fs, None)) \/
  (~ ((i + length row <= length (headers meta))%nat /\ Forall typed row) /\
   (decodeCells meta i row fs = Panic ZeroValue \/
    decodeCells meta i row fs = Panic IndexOutOfRange)).
Proof.
  intros Hno. revert i fs. induction row as [|v row IH]; intros i fs Hi Hidx.
  - left. simpl. split; [lia|]. split; [constructor|].
    unfold assignAll. by rewrite zip_with_nil_r.
  - cbn [decodeCells length].
    destruct (headers meta !! i) as [h|] eqn:Hh.
    + destruct (typeOf v) as [vt|] eqn:Ht.
      * rewrite (decodeCell_default meta h v vt fs Hno Ht).
        2:{ rewrite Forall_forall in Hidx. apply Hidx.
            eapply list_elem_of_lookup_2, Hh. }
        destruct (IH (S i) (assignCell fs (h, v))) as [(Hl & Hty & Hrun)|(Hn & Hrun)].
        { apply lookup_lt_Some in Hh. lia. }
        { eapply Forall_impl; [exact Hidx|]. simpl. intros.
          by rewrite assignCell_length. }
        -- left. split; [lia|]. split.
           ++ constructor; [|done]. unfold typed. by rewrite Ht.
           ++ rewrite Hrun. by rewrite (drop_S _ _ _ Hh).
        -- right. split; [|done]. intros [Hl Hty]. apply Hn.
           split; [lia|]. by apply Forall_cons in Hty as [_ Hty].
      * right. split.
        -- intros [_ Hty]. apply Forall_cons in Hty as [Hv _]. by apply Hv.
        -- left. unfold decodeCell, assignField. by rewrite Hno, Ht.
    + right. apply lookup_ge_None in Hh. split; [|by right].
      intros [Hl _]. lia.
Qed.

Lemma assignAll_nil_r (hs : list Header) (fs : Fieldvals) :
  assignAll hs [] fs = fs.
Proof. unfold assignAll. by rewrite zip_with_nil_r. Qed.

Lemma newStruct_length (typ : GoType) :
  length (newStruct typ) = length (Fields typ).
Proof. unfold newStruct. apply length_fmap. Qed.

Lemma decodeFields_default_cases
  (DecodeField : GoType -> option FieldDecoder) (typ : GoType)
  (row : list Value) (fs : Fieldvals) :
  DecodeField typ = None -> length fs = length (Fields typ) ->
  (fits (describe typ) row /\
   decodeFields row (Some (buildMetadata DecodeField typ)) fs
   = Ret (assignAll (describe typ) row fs, None)) \/
  (~ fits (describe typ) row /\
   (decodeFields row (Some (buildMetadata DecodeField typ)) fs = Panic ZeroValue \/
    decodeFields row (Some (buildMetadata DecodeField typ)) fs
    = Panic IndexOutOfRange)).
Proof.
  intros Hno Hlen.
  pose proof (buildMetadata_headers DecodeField typ) as Hh.
  destruct (describe_indices typ) as [_ Hidx].
  destruct (decide (row = [])) as [->|Hr].
  { left. split; [by left|]. by rewrite decodeFields_guard, assignAll_nil_r by auto. }
  destruct (decide (describe typ = [])) as [E|Hd].
  { left. split; [right; by left|].
    rewrite decodeFields_guard by (right; by rewrite Hh). by rewrite E. }
  rewrite decodeFields_nonempty by (done || by rewrite Hh).
  destruct (decodeCells_default_cases (buildMetadata DecodeField typ) row 0 fs)
    as [(Hl & Hty & Hrun)|(Hn & Hrun)]; try done.
  - lia.
  - rewrite Hh, Hlen. done.
  - left. rewrite Hh in *. split; [right; right; split; [lia|done]|].
    by rewrite Hrun.
  - right. rewrite Hh in *. split; [|done].
    intros [F|[F|[F1 F2]]]; try done. apply Hn. split; [simpl; lia|done].
Qed.

Lemma bindRows_default_cases
  (DecodeField : GoType -> option FieldDecoder) (typ : GoType)
  (rows : list (list Value)) :
  DecodeField typ = None ->
  (Forall (fits (describe typ)) rows /\
   bindRows (buildMetadata DecodeField typ) typ rows
   = Ret ((fun row => assignAll (describe typ) row (newStruct typ)) <$> rows,
          None)) \/
  (~ Forall (fits (describe typ)) rows /\
   (bindRows (buildMetadata DecodeField typ) typ rows = Panic ZeroValue \/
    bindRows (buildMetadata DecodeField typ) typ rows = Panic IndexOutOfRange)).
Proof.
  intros Hno. induction rows as [|row rows IH].
  - left. split; [constructor|done].
  - cbn [bindRows].
    destruct (decodeFields_default_cases DecodeField typ row (newStruct typ)
                Hno (newStruct_length typ)) as [(Hf & Hrun)|(Hn & Hrun)].
    + rewrite Hrun. destruct IH as [(Hfs & Hrest)|(Hns & Hrest)].
      * left. split; [by constructor|]. by rewrite Hrest.
      * right. split.
        -- intros H. apply Forall_cons in H as [_ H]. by apply Hns.
        -- destruct Hrest as [-> | ->]; auto.
    + right. split.
      * intros H. apply Forall_cons in H as [H _]. by apply Hn.
      * destruct Hrun as [-> | ->]; auto.
Qed.

(** Without a custom decoder, binding into a slice never returns an
    error. It returns nil and appends one record per row when every row
    fits (is empty, or faces no header, or has no more cells than headers
    and no nil cell), and otherwise it panics, on a nil cell or on a cell
    beyond the headers. *)
Theorem DecodeValueRange_default_outcomes
  (DecodeField : GoType -> option FieldDecoder) (ptrElements : bool)
  (typ : GoType) (elem : nat) (es : list Elem) (st : State)
  (first : ValueRange) (rest : list ValueRange) :
  kind typ = Struct -> cache_ok DecodeField st -> DecodeField typ = None ->
  heap st !! elem = Some (OSlice es) -> Values first <> [] ->
  let dest := Pointer (TSlice (if ptrElements then TPtr typ else typ))
                      (Some elem) in
  let rows := allRows (first :: rest) in
  (Forall (fits (describe typ)) rows ->
   exists st',
     DecodeValueRange DecodeField dest (first :: rest) st = Ret (None, st') /\
     heap st' !! elem
     = Some (OSlice (es ++ appended ptrElements (length (heap st))
               ((fun row => assignAll (describe typ) row (newStruct typ))
                  <$> rows)))) /\
  (~ Forall (fits (describe typ)) rows ->
   DecodeValueRange DecodeField dest (first :: rest) st = Panic ZeroValue \/
   DecodeValueRange DecodeField dest (first :: rest) st = Panic IndexOutOfRange) /\
  (forall e st',
      DecodeValueRange DecodeField dest (first :: rest) st <> Ret (Some e, st')).
Proof.
  intros K Hok Hno He Hne dest rows.
  assert (Hpanic : forall p,
    bindRows (buildMetadata DecodeField typ) typ rows = Panic p ->
    DecodeValueRange DecodeField dest (first :: rest) st = Panic p).
  { intros p Hb. unfold dest. rewrite DecodeValueRange_slice by done.
    destruct (getMetadata_total DecodeField typ st Hok K)
      as (a & st1 & -> & Hheap & _).
    rewrite <- Hheap in He.
    pose proof (decodeRows_spec ptrElements typ
                  (mkRef a (buildMetadata DecodeField typ)) elem
                  (allRows (first :: rest)) st1 es He) as Hspec.
    cbn [deref] in Hspec. fold rows in Hspec. by rewrite Hb in Hspec. }
  destruct (bindRows_default_cases DecodeField typ rows Hno)
    as [(Hf & Hrun)|(Hn & Hrun)].
  - destruct (DecodeValueRange_slice_spec DecodeField ptrElements typ elem es
                st first rest _ None K Hok He Hne Hrun)
      as (st' & Hdvr & Hs & _).
    split; [intros _; by exists st'|]. split; [done|].
    intros e st''. fold dest in Hdvr. by rewrite Hdvr.
  - assert (Hp : DecodeValueRange DecodeField dest (first :: rest) st
                 = Panic ZeroValue \/
                 DecodeValueRange DecodeField dest (first :: rest) st
                 = Panic IndexOutOfRange).
    { destruct Hrun as [Hrun|Hrun]; [left|right]; by apply Hpanic. }
    split; [done|]. split; [done|].
    intros e st'. by destruct Hp as [-> | ->].
Qed.

Lemma DecodeValueRange_default_outcomes_witness :
  DecodeValueRange noMethods (Pointer (TSlice testRow) (Some 0%nat))
    [mkValueRange "" "" [[VString "makis"; VNil]]] emptySlice = Panic ZeroValue \/
  DecodeValueRange noMethods (Pointer (TSlice testRow) (Some 0%nat))
    [mkValueRange "" "" [[VString "makis"; VNil]]] emptySlice
  = Panic IndexOutOfRange.
Proof.
  apply (proj1 (proj2 (DecodeValueRange_default_outcomes noMethods false
           testRow 0 [] emptySlice (mkValueRange "" "" [[VString "makis"; VNil]])
           [] eq_refl
           ltac:(intros t m H; simpl in H; rewrite lookup_empty in H; discriminate)
           eq_refl eq_refl ltac:(discriminate)))).
  intros H. apply Forall_cons in H as [[F|[F|[_ F]]] _]; try discriminate.
  apply Forall_cons in F as [_ F]. apply Forall_cons in F as [F _]. by apply F.
Defined.

Lemma decodeCell_panics (meta : metadata) (h : Header) (v : Value)
  (fs : Fieldvals) (p : panic) :
  decodeCell meta h v fs = Panic p -> bindingPanic p = true.
Proof.
  assert (Ha : forall fs0 q, assignField h v fs0 = Panic q ->
                             bindingPanic q = true).
  { intros fs0 q. unfold assignField. destruct (typeOf v); [|by intros [= <-]].
    destruct (AssignableTo _ _); [|done].
    case_bool_decide; [done|by intros [= <-]]. }
  unfold decodeCell. destruct (decodeFieldFunc meta) as [f|].
  - destruct v; try (by intros [= <-]);
      match goal with
      | |- context [f ?a ?b ?c] => destruct (f a b c) as [fs1 [e|]]
      end; try done; (case_bool_decide; [done|]);
      match goal with
      | |- context [assignField ?a ?b ?c] =>
          destruct (assignField a b c) as [fs2|q] eqn:E; [done|]
      end; intros [= <-]; by apply (Ha _ _ E).
  - destruct (assignField h v fs) as [fs2|q] eqn:E; [done|].
    intros [= <-]. by apply (Ha _ _ E).
Qed.

Lemma decodeCells_panics (meta : metadata) (row : list Value) (i : nat)
  (fs : Fieldvals) (p : panic) :
  decodeCells meta i row fs = Panic p -> bindingPanic p = true.
Proof.
  revert i fs. induction row as [|v row IH]; intros i fs; [done|].
  cbn [decodeCells]. destruct (headers meta !! i) as [h|]; [|by intros [= <-]].
  destruct (decodeCell meta h v fs) as [[fs' [e|]]|q] eqn:E; try done.
  - apply IH.
  - intros [= <-]. by apply decodeCell_panics in E.
Qed.

Lemma decodeValue_panics (row : list Value) (meta : option (Ref metadata))
  (ptr : nat) (st : State) (p : panic) :
  decodeValue row meta ptr st = Panic p -> bindingPanic p = true.
Proof.
  unfold decodeValue. destruct meta as [m|]; [|done].
  destruct (bool_decide _ || bool_decide _); [done|].
  unfold mbind, M_bind, loadStruct, lift.
  destruct (heap st !! ptr) as [[fs|es]|]; try (by intros [= <-]).
  destruct (decodeCells (deref m) 0 row fs) as [[fs' e]|q] eqn:E; [done|].
  intros [= <-]. by apply decodeCells_panics in E.
Qed.

Lemma decodeRows_panics (ptrElements : bool) (typ : GoType)
  (meta : Ref metadata) (elem : nat) (rows : list (list Value))
  (st : State) (p : panic) :
  decodeRows ptrElements typ meta elem rows st = Panic p ->
  bindingPanic p = true.
Proof.
  revert st. induction rows as [|row rest IH]; intros st; [done|].
  cbn [decodeRows]. unfold mbind at 1, M_bind at 1, New at 1.
  cbn beta iota. unfold mbind at 1, M_bind at 1.
  match goal with
  | |- context [decodeValue ?r ?m ?a ?s] =>
      destruct (decodeValue r m a s) as [[[err|] st2]|q] eqn:Ev; try done
  end.
  - unfold mbind, M_bind, loadStruct, loadSlice, store, mret, M_ret.
    destruct ptrElements; cbn beta iota delta [negb];
      repeat match goal with
        | |- context [heap st2 !! ?a] =>
            destruct (heap st2 !! a) as [[?|?]|]; try (by intros [= <-])
        end; apply IH.
  - intros [= <-]. by apply decodeValue_panics in Ev.
Qed.

(** [DecodeValueRange] never reaches the panic of [getMetadata] for a type
    that is not a struct, whatever the destination and the cache hold, and
    never dereferences nil. *)
Theorem DecodeValueRange_never_not_a_struct
  (DecodeField : GoType -> option FieldDecoder) (dest : Dest)
  (rangeValues : list ValueRange) (st : State) :
  DecodeValueRange DecodeField dest rangeValues st <> Panic NotAStructType /\
  DecodeValueRange DecodeField dest rangeValues st <> Panic NilDereference.
Proof.
  assert (H : forall p,
    DecodeValueRange DecodeField dest rangeValues st = Panic p ->
    bindingPanic p = true).
  { intros p.
    assert (Hget : forall typ (k : Ref metadata -> M (option error)),
      kind typ = Struct ->
      (forall m s q, k m s = Panic q -> bindingPanic q = true) ->
      (meta ← getMetadata DecodeField typ; k meta) st = Panic p ->
      bindingPanic p = true).
    { intros typ k K Hk. unfold mbind, M_bind, getMetadata.
      destruct (cache st !! typ) as [m|]; [apply Hk|].
      rewrite bool_decide_eq_false_2 by (intros N; by apply N). apply Hk. }
    unfold DecodeValueRange.
    destruct rangeValues as [|first rest]; [done|].
    destruct (Values first) as [|row0 rows0]; [done|].
    destruct dest as [|typ [elem|]]; [done| |by intros [= <-]].
    case_bool_decide as Ks.
    - destruct typ as [| | | | | |t1|t1|n fs0]; try done.
      unfold mbind at 1, M_bind at 1, lift at 1. cbn [Reflect.Elem].
      case_bool_decide as Kp.
      + destruct t1 as [| | | | | |t2|t2|n fs0]; try done.
        unfold mbind at 1, M_bind at 1, lift at 1. cbn [Reflect.Elem].
        case_bool_decide as K2; [|done].
        apply (Hget _ _ K2). intros m s q Hrun.
        rewrite decodeRanges_rows in Hrun. by apply decodeRows_panics in Hrun.
      + case_bool_decide as K1; [done|].
        apply Hget; [by destruct (decide (kind t1 = Struct))|].
        intros m s q Hrun.
        rewrite decodeRanges_rows in Hrun. by apply decodeRows_panics in Hrun.
    - case_bool_decide as K; [done|].
      apply Hget; [by destruct (decide (kind typ = Struct))|].
      intros m s q Hrun. by apply decodeValue_panics in Hrun. }
  split; intros E; by apply H in E.
Qed.

(** A call reaches the cache through at most one [getMetadata]. *)
Lemma DecodeValueRange_metadata_use
  (DecodeField : GoType -> option FieldDecoder) (dest : Dest)
  (rangeValues : list ValueRange) (st st' : State) (e : option error) :
  DecodeValueRange DecodeField dest rangeValues st = Ret (e, st') ->
  (cache st' = cache st /\ built st' = built st) \/
  (exists typ m st1,
      getMetadata DecodeField typ st = Ret (m, st1) /\
      cache st' = cache st1 /\ built st' = built st1).
Proof.
  assert (Hget : forall typ (k : Ref metadata -> M (option error)),
    (forall m s s' e', k m s = Ret (e', s') ->
                       cache s' = cache s /\ built s' = built s) ->
    (meta ← getMetadata DecodeField typ; k meta) st = Ret (e, st') ->
    (cache st' = cache st /\ built st' = built st) \/
    (exists typ m st1,
        getMetadata DecodeField typ st = Ret (m, st1) /\
        cache st' = cache st1 /\ built st' = built st1)).
  { intros typ k Hk. unfold mbind, M_bind.
    destruct (getMetadata DecodeField typ st) as [[meta st1]|p] eqn:Eg;
      [|done].
    intros Hrun. apply Hk in Hrun. right. by exists typ, meta, st1. }
  unfold DecodeValueRange.
  destruct rangeValues as [|first rest]; [intros [= <- <-]; by left|].
  destruct (Values first) as [|row0 rows0]; [intros [= <- <-]; by left|].
  destruct dest as [|typ [elem|]]; [intros [= <- <-]; by left| |done].
  case_bool_decide.
  - unfold mbind at 1, M_bind at 1, lift at 1.
    destruct (Reflect.Elem typ) as [t1|p]; [|done].
    case_bool_decide.
    + unfold mbind at 1, M_bind at 1, lift at 1.
      destruct (Reflect.Elem t1) as [t2|p]; [|done].
      case_bool_decide; [|intros [= <- <-]; by left].
      apply Hget. intros m s s' e' Hrun.
      rewrite decodeRanges_rows in Hrun. by apply decodeRows_cache in Hrun.
    + case_bool_decide; [intros [= <- <-]; by left|].
      apply Hget. intros m s s' e' Hrun.
      rewrite decodeRanges_rows in Hrun. by apply decodeRows_cache in Hrun.
  - case_bool_decide; [intros [= <- <-]; by left|].
    apply Hget. intros m s s' e' Hrun. by apply decodeValue_cache in Hrun.
Qed.

Lemma getMetadata_cache_once
  (DecodeField : GoType -> option FieldDecoder) (typ : GoType)
  (st st' : State) (m : Ref metadata) :
  cache_once st -> getMetadata DecodeField typ st = Ret (m, st') ->
  cache_once st'.
Proof.
  intros (Hsize & Hlt & Hinj). unfold getMetadata.
  destruct (cache st !! typ) as [m0|] eqn:E; [by intros [= <- <-]|].
  case_bool_decide; [done|]. intros [= <- <-]. unfold cache_once.
  cbn [cache built]. split; [|split].
  - rewrite map_size_insert_None by done. by rewrite Hsize.
  - intros t m. destruct (decide (typ = t)) as [->|N].
    + rewrite lookup_insert_eq. intros [= <-]. simpl. lia.
    + rewrite lookup_insert_ne by done. intros H'. apply Hlt in H'. lia.
  - intros t1 t2 m1 m2 H1 H2 Ha.
    destruct (decide (typ = t1)) as [E1|N1];
      destruct (decide (typ = t2)) as [E2|N2].
    + congruence.
    + subst t1. rewrite lookup_insert_eq in H1.
      rewrite lookup_insert_ne in H2 by done. injection H1 as <-.
      apply Hlt in H2. simpl in Ha. lia.
    + subst t2. rewrite lookup_insert_eq in H2.
      rewrite lookup_insert_ne in H1 by done. injection H2 as <-.
      apply Hlt in H1. simpl in Ha. lia.
    + rewrite lookup_insert_ne in H1, H2 by done. by eapply Hinj.
Qed.

(** Metadata is built once per type: from the initial state on, after any
    calls of [getMetadata] and [DecodeValueRange], as many metadata were
    built as there are cached types and no two types share an instance;
    one [DecodeValueRange] builds at most one. *)
Theorem metadata_built_once (DecodeField : GoType -> option FieldDecoder) :
  cache_once initial /\
  (forall typ st m st',
      cache_once st -> getMetadata DecodeField typ st = Ret (m, st') ->
      cache_once st') /\
  (forall dest rangeValues st e st',
      cache_once st ->
      DecodeValueRange DecodeField dest rangeValues st = Ret (e, st') ->
      cache_once st' /\ (built st <= built st' <= S (built st))%nat).
Proof.
  split; [|split].
  - split; [done|]. split.
    + intros t m H. simpl in H. by rewrite lookup_empty in H.
    + intros t1 t2 m1 m2 H. simpl in H. by rewrite lookup_empty in H.
  - intros typ st m st'. apply getMetadata_cache_once.
  - intros dest rvs st e st' Hone Hrun.
    apply DecodeValueRange_metadata_use in Hrun
      as [[Hc Hb]|(typ & m & st1 & Hg & Hc & Hb)].
    + unfold cache_once. rewrite Hc, Hb. split; [done|lia].
    + pose proof (getMetadata_cache_once _ _ _ _ _ Hone Hg) as H1.
      unfold cache_once. rewrite Hc, Hb. split; [done|].
      unfold getMetadata in Hg. destruct (cache st !! typ).
      * injection Hg as <- <-. lia.
      * case_bool_decide; [done|]. injection Hg as <- <-. simpl. lia.
Qed.

Lemma metadata_built_once_witness :
  exists st',
    DecodeValueRange noMethods (Pointer (TSlice testRow) (Some 0%nat)) [makis]
      emptySlice = Ret (None, st') /\
    cache_once st' /\ (0 <= built st' <= 1)%nat.
Proof.
  eexists. split; [reflexivity|].
  apply (proj2 (proj2 (metadata_built_once noMethods))
           (Pointer (TSlice testRow) (Some 0%nat)) [makis] emptySlice None).
  - exact (proj1 (metadata_built_once noMethods)).
  - reflexivity.
Defined.

(** The cache stays sound: it is initially, and after any call of
    [getMetadata] or [DecodeValueRange], every entry is keyed by a struct
    type and holds that type, its descriptors and its custom decoder. *)
Theorem cache_ok_invariant (DecodeField : GoType -> option FieldDecoder) :
  cache_ok DecodeField initial /\
  (forall typ st m st',
      cache_ok DecodeField st ->
      getMetadata DecodeField typ st = Ret (m, st') ->
      cache_ok DecodeField st') /\
  (forall dest rangeValues st e st',
      cache_ok DecodeField st ->
      DecodeValueRange DecodeField dest rangeValues st = Ret (e, st') ->
      cache_ok DecodeField st') /\
  (forall st t m,
      cache_ok DecodeField st -> cache st !! t = Some m ->
      kind t = Struct /\ typ (deref m) = t /\
      headers (deref m) = describe t /\
      decodeFieldFunc (deref m) = DecodeField t).
Proof.
  split; [apply cache_ok_initial|]. split; [|split].
  - intros typ st m st' Hok Hrun.
    by apply (getMetadata_returns DecodeField _ _ _ _ Hrun).
  - intros dest rvs st e st' Hok Hrun.
    by apply (DecodeValueRange_cache DecodeField _ _ _ _ _ Hrun).
  - intros st t m Hok Hm. destruct (Hok _ _ Hm) as [-> K].
    split; [done|]. split; [done|]. split; [apply buildMetadata_headers|done].
Qed.

Lemma cache_ok_invariant_witness :
  exists st',
    DecodeValueRange noMethods (Pointer (TSlice testRow) (Some 0%nat)) [makis]
      emptySlice = Ret (None, st') /\
    cache_ok noMethods st'.
Proof.
  eexists. split; [reflexivity|].
  apply (proj1 (proj2 (proj2 (cache_ok_invariant noMethods)))
           (Pointer (TSlice testRow) (Some 0%nat)) [makis] emptySlice None).
  - exact (proj1 (cache_ok_invariant noMethods)).
  - reflexivity.
Defined.

Lemma allRows_app (l1 l2 : list ValueRange) :
  allRows (l1 ++ l2) = allRows l1 ++ allRows l2.
Proof. unfold allRows. by rewrite fmap_app, concat_app. Qed.

(** Binding into a slice composes: one call on two lists of matrices
    (each with a first matrix that has rows) is the call on the first list
    followed, when that returns nil, by the call on the second. *)
Theorem DecodeValueRange_two_calls
  (DecodeField : GoType -> option FieldDecoder) (ptrElements : bool)
  (typ : GoType) (elem : nat) (first1 first2 : ValueRange)
  (rest1 rest2 : list ValueRange) (st : State) :
  kind typ = Struct -> Values first1 <> [] -> Values first2 <> [] ->
  let dest := Pointer (TSlice (if ptrElements then TPtr typ else typ))
                      (Some elem) in
  DecodeValueRange DecodeField dest ((first1 :: rest1) ++ first2 :: rest2) st
  = match DecodeValueRange DecodeField dest (first1 :: rest1) st with
    | Ret (None, st1) => DecodeValueRange DecodeField dest (first2 :: rest2) st1
    | other => other
    end.
Proof.
  intros K H1 H2 dest. unfold dest. cbn [app].
  rewrite !DecodeValueRange_slice by done.
  change (first1 :: rest1 ++ first2 :: rest2)
    with ((first1 :: rest1) ++ first2 :: rest2).
  rewrite allRows_app.
  destruct (getMetadata DecodeField typ st) as [[meta st0]|p] eqn:Eg; [|done].
  rewrite decodeRows_app.
  destruct (decodeRows ptrElements typ meta elem (allRows (first1 :: rest1)) st0)
    as [[[e|] st1]|p] eqn:Er; try done.
  rewrite DecodeValueRange_slice by done.
  apply decodeRows_cache in Er as [Hc _].
  apply getMetadata_returns in Eg as (Hm & _).
  rewrite <- Hc in Hm. by rewrite (getMetadata_hit DecodeField _ _ _ Hm).
Qed.

Lemma DecodeValueRange_two_calls_witness :
  DecodeValueRange noMethods (Pointer (TSlice testRow) (Some 0%nat))
    [makis; makis] emptySlice
  = match DecodeValueRange noMethods (Pointer (TSlice testRow) (Some 0%nat))
            [makis] emptySlice with
    | Ret (None, st1) =>
        DecodeValueRange noMethods (Pointer (TSlice testRow) (Some 0%nat))
          [makis] st1
    | other => other
    end.
Proof.
  apply (DecodeValueRange_two_calls noMethods false testRow 0 makis makis [] []
           emptySlice); (reflexivity || discriminate).
Defined.

(** For a slice, once the first matrix has a row, where one matrix ends
    and the next begins does not matter: the call equals the call on one
    matrix holding all the rows. *)
Theorem DecodeValueRange_matrices_merge
  (DecodeField : GoType -> option FieldDecoder) (ptrElements : bool)
  (typ : GoType) (elem : nat) (first : ValueRange) (rest : list ValueRange)
  (st : State) :
  kind typ = Struct -> Values first <> [] ->
  let dest := Pointer (TSlice (if ptrElements then TPtr typ else typ))
                      (Some elem) in
  DecodeValueRange DecodeField dest (first :: rest) st
  = DecodeValueRange DecodeField dest
      [mkValueRange "" "" (allRows (first :: rest))] st.
Proof.
  intros K Hne dest. unfold dest. rewrite !DecodeValueRange_slice; try done.
  - unfold allRows at 2. cbn [fmap list_fmap concat Values].
    by rewrite app_nil_r.
  - cbn [Values]. unfold allRows. cbn [fmap list_fmap concat].
    destruct (Values first); [done|]. done.
Qed.

Lemma DecodeValueRange_matrices_merge_witness :
  DecodeValueRange noMethods (Pointer (TSlice testRow) (Some 0%nat))
    [makis; empty; makis] emptySlice
  = DecodeValueRange noMethods (Pointer (TSlice testRow) (Some 0%nat))
      [mkValueRange "" "" [[VString "makis"; VInt 27]; [VString "makis"; VInt 27]]]
      emptySlice.
Proof.
  apply (DecodeValueRange_matrices_merge noMethods false testRow 0 makis
           [empty; makis] emptySlice); (reflexivity || discriminate).
Defined.

End ValuesFacts.

(** ** The sheets of a spreadsheet *)

Module SpreadsheetsFacts.
Import Spreadsheets.

Lemma findSheet_spec (title : string) (sheets : list Sheet) :
  match findSheet title sheets with
  | (s, true) =>
      exists before after,
        sheets = before ++ s :: after /\ named title s /\
        Forall (fun s' => ~ named title s') before
  | (s, false) => s = zeroSheet /\ Forall (fun s' => ~ named title s') sheets
  end.
Proof.
  induction sheets as [|s rest IH]; simpl; [by split|].
  destruct (bool_decide (Title (Properties s) = title)
            || bool_decide (ID (Properties s) = title)) eqn:E.
  - exists [], rest. split; [done|]. split; [|constructor].
    apply orb_true_iff in E as [E|E]; apply bool_decide_eq_true in E;
      [by left|by right].
  - apply orb_false_iff in E as [E1 E2].
    apply bool_decide_eq_false in E1, E2.
    assert (Hs : ~ named title s) by (intros [H|H]; done).
    destruct (findSheet title rest) as [s' [|]].
    + destruct IH as (before & after & -> & Hn & Hb).
      exists (s :: before), after. split; [done|]. split; [done|].
      by constructor.
    + destruct IH as [-> Hall]. split; [done|]. by constructor.
Qed.

(** [GetSheet] finds a sheet exactly when some sheet has the text for
    title or for id; it then returns the first such sheet, which may be
    one whose id, not title, is the text; otherwise it returns the zero
    [Sheet]. *)
Theorem GetSheet_first_match (sd : Spreadsheet) (title : string) :
  ((GetSheet sd title).2 = true <-> Exists (named title) (Sheets sd)) /\
  ((GetSheet sd title).2 = true ->
   exists before after,
     Sheets sd = before ++ (GetSheet sd title).1 :: after /\
     named title (GetSheet sd title).1 /\
     Forall (fun s' => ~ named title s') before) /\
  ((GetSheet sd title).2 = false -> (GetSheet sd title).1 = zeroSheet).
Proof.
  unfold GetSheet. pose proof (findSheet_spec title (Sheets sd)) as H.
  destruct (findSheet title (Sheets sd)) as [s [|]]; simpl.
  - destruct H as (before & after & E & Hn & Hb). split; [|split; [|done]].
    + split; [intros _|done]. rewrite E. apply Exists_app. right.
      by constructor.
    + intros _. by exists before, after.
  - destruct H as [-> Hall]. split; [|split; [done|done]].
    split; [done|]. intros Hex. apply Exists_exists in Hex as (s & Hin & Hn).
    rewrite Forall_forall in Hall. by apply Hall in Hin.
Qed.

Lemma GetSheet_first_match_witness :
  exists before after,
    Sheets salesBook = before ++ (GetSheet salesBook "Sales").1 :: after /\
    named "Sales" (GetSheet salesBook "Sales").1 /\
    Forall (fun s' => ~ named "Sales" s') before.
Proof.
  apply (proj1 (proj2 (GetSheet_first_match salesBook "Sales"))). reflexivity.
Defined.

End SpreadsheetsFacts.

(** ** The request cycle *)

Module ClientFacts.
Import Errors Client.

Lemma Do_returns_response_or_error (x : Exchange) :
  forall r, Do x <> (None, None, r).
Proof.
  intros r. unfold Do.
  destruct (requestErr x); [done|].
  destruct (roundTrip x) as [resp|err [[|]|]]; try done.
  case_bool_decide; [|done]. by destruct (GzipHeader resp).
Qed.

(** The body is left open exactly when the gzip reader cannot be made. *)
Lemma ReadJSON_body_open (requestData : bool) (x : Exchange) :
  body (ReadJSON requestData x).2 = Open <->
  (requestData = false \/ encodeErr x = None) /\
  requestErr x = None /\
  exists resp err, roundTrip x = Replied resp /\
                   ContentEncoding resp = "gzip" /\
                   GzipHeader resp = Some err.
Proof.
  unfold ReadJSON, Do. split.
  - destruct requestData, (encodeErr x) as [e|]; simpl; try done;
      (destruct (requestErr x); [done|]);
      (destruct (roundTrip x) as [resp|err [[|]|]]; simpl; try done);
      (case_bool_decide as Hg;
       [destruct (GzipHeader resp) as [e'|] eqn:Eg|]; simpl;
       try (case_bool_decide; simpl; done));
      intros _; split; auto; split; auto; by exists resp, e'.
  - intros (Hreq & Hr & resp & err & Hrt & Hg & Hh).
    assert (Henc : (if requestData then encodeErr x else None) = None).
    { destruct Hreq as [->| ->]; [done|by destruct requestData]. }
    rewrite Henc, Hr, Hrt. rewrite bool_decide_eq_true_2 by done.
    by rewrite Hh.
Qed.

(** C9, at the failing input: when the reply announces gzip and
    [gzip.NewReader] fails, [ReadJSON] returns the error and the body of
    the response is still open. *)
Theorem ReadJSON_gzip_failure_leaves_body_open :
  ReadJSON false badGzipExchange
  = (Some (Errorf "gzip: invalid header"), mkResources Open Absent) /\
  ReadJSON true badGzipExchange
  = (Some (Errorf "gzip: invalid header"), mkResources Open Absent).
Proof. split; reflexivity. Qed.

(** A 404 reply with the body "not found" becomes a [ResourceError] with
    the method, the URL, the status and the body, and the body is closed. *)
Lemma ReadJSON_not_found :
  ReadJSON false (mkExchange None None (Replied notFound) None None)
  = (Some (ResourceErr (Some (mkRef 0 (mkResourceError
             "GET" ".../values/A1:B2" 404 "not found")))),
     mkResources Closed Absent).
Proof. reflexivity. Qed.

(** After [ReadJSON] the gzip reader is never left open, and whenever it
    was closed the body under it was closed too. *)
Theorem ReadJSON_gzip_reader_released (requestData : bool) (x : Exchange) :
  gzipReader (ReadJSON requestData x).2 <> Open /\
  (gzipReader (ReadJSON requestData x).2 = Closed ->
   body (ReadJSON requestData x).2 = Closed).
Proof.
  unfold ReadJSON, Do.
  destruct requestData, (encodeErr x) as [e|]; simpl; try done;
    (destruct (requestErr x); [done|]);
    (destruct (roundTrip x) as [resp|err [[|]|]]; simpl; try done);
    (case_bool_decide;
     [destruct (GzipHeader resp) as [e'|]|]; simpl; try done);
    case_bool_decide; simpl; done.
Qed.

Lemma ReadJSON_gzip_reader_released_witness :
  gzipReader (ReadJSON false
                (mkExchange None None
                   (Replied (mkResponse "GET" "u" 200 "gzip" None (Some "{}")))
                   None None)).2 = Closed /\
  body (ReadJSON false
          (mkExchange None None
             (Replied (mkResponse "GET" "u" 200 "gzip" None (Some "{}")))
             None None)).2 = Closed.
Proof.
  split; [reflexivity|].
  apply (proj2 (ReadJSON_gzip_reader_released false
           (mkExchange None None
              (Replied (mkResponse "GET" "u" 200 "gzip" None (Some "{}")))
              None None))).
  reflexivity.
Defined.

(** [ReadJSON] returns nil exactly when every step succeeds and the status
    is 200; the body is then closed. *)
Theorem ReadJSON_succeeds_iff (requestData : bool) (x : Exchange) :
  ((ReadJSON requestData x).1 = None <->
   (requestData = false \/ encodeErr x = None) /\
   requestErr x = None /\
   decodeErr x = None /\
   exists resp, roundTrip x = Replied resp /\
                Status resp = StatusOK /\
                (ContentEncoding resp = "gzip" -> GzipHeader resp = None)) /\
  ((ReadJSON requestData x).1 = None ->
   body (ReadJSON requestData x).2 = Closed).
Proof.
  unfold ReadJSON, Do. split.
  - split.
    + destruct requestData, (encodeErr x) as [e|]; simpl; try done;
        (destruct (requestErr x); [done|]);
        (destruct (roundTrip x) as [resp|err [[|]|]]; simpl; try done);
        (case_bool_decide as Hg;
         [destruct (GzipHeader resp) as [e'|] eqn:Eg|]; simpl; try done);
        (case_bool_decide as Hs; simpl; [done|]);
        intros Hd; (split; [auto|]); (split; [done|]); (split; [done|]);
        exists resp; (split; [done|]);
        (split; [by destruct (decide (Status resp = StatusOK))|done]).
    + intros (Hreq & Hr & Hd & resp & Hrt & Hs & Hg).
      assert (Henc : (if requestData then encodeErr x else None) = None).
      { destruct Hreq as [->| ->]; [done|by destruct requestData]. }
      rewrite Henc, Hr, Hrt.
      case_bool_decide as Hz.
      * rewrite (Hg Hz). simpl. rewrite bool_decide_eq_false_2 by (by intros N).
        done.
      * simpl. rewrite bool_decide_eq_false_2 by (by intros N). done.
  - destruct requestData, (encodeErr x) as [e|]; simpl; try done;
      (destruct (requestErr x); [done|]);
      (destruct (roundTrip x) as [resp|err [[|]|]]; simpl; try done);
      (case_bool_decide as Hg;
       [destruct (GzipHeader resp) as [e'|] eqn:Eg|]; simpl; try done);
      case_bool_decide; simpl; done.
Qed.

Lemma ReadJSON_succeeds_iff_witness :
  (ReadJSON false
     (mkExchange None None
        (Replied (mkResponse "GET" "u" 200 "gzip" None (Some "{}")))
        None None)).1 = None /\
  body (ReadJSON false
          (mkExchange None None
             (Replied (mkResponse "GET" "u" 200 "gzip" None (Some "{}")))
             None None)).2 = Closed.
Proof.
  split; [reflexivity|].
  apply (proj2 (ReadJSON_succeeds_iff false
           (mkExchange None None
              (Replied (mkResponse "GET" "u" 200 "gzip" None (Some "{}")))
              None None))).
  reflexivity.
Defined.

(** A reply that is not 200 becomes a [ResourceError], whatever the decoder
    would have said. *)
Theorem ReadJSON_status_error (requestData : bool) (x : Exchange)
  (resp : Response) :
  (requestData = false \/ encodeErr x = None) ->
  requestErr x = None ->
  roundTrip x = Replied resp ->
  (ContentEncoding resp = "gzip" -> GzipHeader resp = None) ->
  Status resp <> StatusOK ->
  exists a,
    ReadJSON requestData x
    = (Some (ResourceErr (Some (mkRef a
               (mkResourceError (RequestMethod resp) (RequestURL resp)
                  (Status resp)
                  (default "unspecified" (Content resp)))))),
       mkResources Closed
         (if bool_decide (ContentEncoding resp = "gzip") then Closed else Absent)).
Proof.
  intros Hreq Hr Hrt Hg Hs. exists 0%nat. unfold ReadJSON, Do.
  assert (Henc : (if requestData then encodeErr x else None) = None).
  { destruct Hreq as [->| ->]; [done|by destruct requestData]. }
  rewrite Henc, Hr, Hrt. unfold newResourceError.
  case_bool_decide as Hz.
  - rewrite (Hg Hz). simpl. rewrite bool_decide_eq_true_2 by done.
    by destruct (Content resp).
  - simpl. rewrite bool_decide_eq_true_2 by done. by destruct (Content resp).
Qed.

Lemma ReadJSON_status_error_witness :
  exists a,
    ReadJSON false (mkExchange None None (Replied notFound) None
                      (Some (Errorf "unexpected end of JSON input")))
    = (Some (ResourceErr (Some (mkRef a
               (mkResourceError "GET" ".../values/A1:B2" 404 "not found")))),
       mkResources Closed Absent).
Proof.
  apply (ReadJSON_status_error false
           (mkExchange None None (Replied notFound) None
              (Some (Errorf "unexpected end of JSON input"))) notFound);
    try reflexivity; try discriminate. by left.
Defined.

(** A failed round trip: the context's error wins, and a body that came
    with the failure is closed. *)
Theorem ReadJSON_round_trip_failure (requestData : bool) (x : Exchange)
  (err : error) (response : option bool) :
  (requestData = false \/ encodeErr x = None) ->
  requestErr x = None ->
  roundTrip x = Failed err response ->
  (ReadJSON requestData x).1 = Some (default err (ctxErr x)) /\
  body (ReadJSON requestData x).2 <> Open /\
  (response = Some true -> body (ReadJSON requestData x).2 = Closed).
Proof.
  intros Hreq Hr Hrt. unfold ReadJSON, Do.
  assert (Henc : (if requestData then encodeErr x else None) = None).
  { destruct Hreq as [->| ->]; [done|by destruct requestData]. }
  rewrite Henc, Hr, Hrt.
  destruct response as [[|]|], (ctxErr x); simpl; done.
Qed.

Lemma ReadJSON_round_trip_failure_witness :
  (ReadJSON false (mkExchange None None
                     (Failed (Errorf "connection reset") (Some true))
                     (Some (Errorf "context canceled")) None)).1
  = Some (Errorf "context canceled").
Proof.
  apply (ReadJSON_round_trip_failure false
           (mkExchange None None
              (Failed (Errorf "connection reset") (Some true))
              (Some (Errorf "context canceled")) None)
           (Errorf "connection reset") (Some true)); try reflexivity.
  by left.
Defined.

End ClientFacts.

(** ** The requests *)

Module RequestsFacts.
Import Reflect Errors Values Requests.







Section CallsFacts.
Variable readJSON : forall T : Type, Call -> T -> option error * T.

(** [ReadSpreadsheet] returns the error of [Range] without reaching the
    binder, and returns nil when [Range] brings no matrix or a first
    matrix without rows; in all three cases the state is untouched,
    whatever the destination. *)
Theorem ReadSpreadsheet_nothing_to_bind
  (DecodeField : GoType -> option FieldDecoder) (dest : Dest)
  (spreadsheetID : string) (dataRanges : list string) (st : State) :
  (forall e valueRanges,
      Range readJSON spreadsheetID dataRanges = (valueRanges, Some e) ->
      ReadSpreadsheet readJSON DecodeField dest spreadsheetID dataRanges st
      = Ret (Some e, st)) /\
  (Range readJSON spreadsheetID dataRanges = ([], None) ->
   ReadSpreadsheet readJSON DecodeField dest spreadsheetID dataRanges st
   = Ret (None, st)) /\
  (forall first rest,
      Range readJSON spreadsheetID dataRanges = (first :: rest, None) ->
      Values first = [] ->
      ReadSpreadsheet readJSON DecodeField dest spreadsheetID dataRanges st
      = Ret (None, st)).
Proof.
  unfold ReadSpreadsheet. split; [|split].
  - by intros e vrs ->.
  - by intros ->.
  - intros first rest -> E. unfold DecodeValueRange. by rewrite E.
Qed.

(** [ClearSpreadsheet] on the range "" or "*" is [ClearSpreadsheet] on
    "A1:Z"; [UpdateSpreadsheet] sends the values with the defaults filled
    in, which never have an empty or "*" range nor an empty major
    dimension, keep the cells, and are the values given when these were
    already set. *)
Theorem default_range_and_dimension (spreadsheetID : string) :
  ClearSpreadsheet readJSON spreadsheetID ""
  = ClearSpreadsheet readJSON spreadsheetID "A1:Z" /\
  ClearSpreadsheet readJSON spreadsheetID "*"
  = ClearSpreadsheet readJSON spreadsheetID "A1:Z" /\
  (forall values,
      UpdateSpreadsheet readJSON spreadsheetID values
      = UpdateSpreadsheet readJSON spreadsheetID (withDefaults values)) /\
  (forall values,
      Values.Range (withDefaults values) <> "" /\
      Values.Range (withDefaults values) <> "*" /\
      MajorDimension (withDefaults values) <> "" /\
      Values (withDefaults values) = Values values) /\
  (forall values,
      Values.Range values <> "" -> Values.Range values <> "*" ->
      MajorDimension values <> "" -> withDefaults values = values).
Proof.
  split; [done|]. split; [done|].
  assert (Hnorm : forall values,
    Values.Range (withDefaults values) <> "" /\
    Values.Range (withDefaults values) <> "*" /\
    MajorDimension (withDefaults values) <> "" /\
    Values (withDefaults values) = Values values).
  { intros [r d vs]. unfold withDefaults. simpl.
    destruct (bool_decide (r = "") || bool_decide (r = "*")) eqn:Eb; simpl;
      destruct (bool_decide (d = "")) eqn:Ed; simpl;
      try apply bool_decide_eq_false in Ed;
      try (apply orb_false_iff in Eb as [E1 E2];
           apply bool_decide_eq_false in E1, E2); done. }
  assert (Hid : forall values,
    Values.Range values <> "" -> Values.Range values <> "*" ->
    MajorDimension values <> "" -> withDefaults values = values).
  { intros [r d vs] H1 H2 H3. unfold withDefaults. simpl in *.
    rewrite (bool_decide_eq_false_2 (r = "")) by done.
    rewrite (bool_decide_eq_false_2 (r = "*")) by done. simpl.
    by rewrite bool_decide_eq_false_2. }
  split; [|split; [done|done]].
  intros values. unfold UpdateSpreadsheet.
  destruct (Hnorm values) as (H1 & H2 & H3 & _).
  by rewrite (Hid (withDefaults values)).
Qed.

End CallsFacts.

Lemma ReadSpreadsheet_nothing_to_bind_witness :
  ReadSpreadsheet offline noMethods NotPointer "id" ["A1:B2"] initial
  = Ret (Some (Errorf "offline"), initial).
Proof.
  apply (proj1 (ReadSpreadsheet_nothing_to_bind offline noMethods NotPointer
                  "id" ["A1:B2"] initial) (Errorf "offline") []).
  reflexivity.
Defined.

Lemma default_range_and_dimension_witness :
  withDefaults (mkValueRange "A2:Z" "COLUMNS" [[VString "a"]])
  = mkValueRange "A2:Z" "COLUMNS" [[VString "a"]].
Proof.
  apply (proj2 (proj2 (proj2 (proj2 (default_range_and_dimension offline "id")))));
    discriminate.
Defined.

End RequestsFacts.
